(** * Text-to-SQL converter ([app.py]): a shallow embedding and its properties

    The program is glue code around three external services: a metadata
    catalog (AWS Glue), a hosted language model (AWS Bedrock) and a SQL
    Server connection (pymssql), driven from a Streamlit page.

    Python strings are modelled by [string]; a character is a code point
    below 256, and [str.strip], [str.lower] and [json.dumps] are given by
    their action on that range.  Calls into the external libraries are
    modelled by a record of outcomes (the "world"); every call is logged
    in a chronological trace of events, so that "commit is invoked exactly
    once" is a statement about that trace.  Python exceptions are modelled
    by their [str(e)] message; only subclasses of [Exception] are
    considered (the ones [except Exception] catches). *)

From Stdlib Require Import String Ascii List Bool Arith NArith ZArith Lia.
From Stdlib Require Import DecimalString.
Import ListNotations.
Local Open Scope string_scope.
Local Open Scope list_scope.

Set Implicit Arguments.

(** ** Python [str] operations *)

Module PyStr.

(** [c.isspace()] for a code point below 256. *)
Definition isspace (c : ascii) : bool :=
  let n := N_of_ascii c in
  (((9 <=? n) && (n <=? 13)) || ((28 <=? n) && (n <=? 32))
   || (n =? 133) || (n =? 160))%N.

(** [s.lstrip()] *)
Fixpoint lstrip (s : string) : string :=
  match s with
  | EmptyString => EmptyString
  | String c s' => if isspace c then lstrip s' else s
  end.

(** [s.rstrip()] *)
Fixpoint rstrip (s : string) : string :=
  match s with
  | EmptyString => EmptyString
  | String c s' =>
      match rstrip s' with
      | EmptyString => if isspace c then EmptyString else String c EmptyString
      | r => String c r
      end
  end.

(** [s.strip()] *)
Definition strip (s : string) : string := rstrip (lstrip s).

(** [c.lower()] for a code point below 256: A-Z and the Latin-1 capitals
    (U+00C0..U+00DE except the multiplication sign U+00D7) move by 32. *)
Definition lower_char (c : ascii) : ascii :=
  let n := N_of_ascii c in
  if (((65 <=? n) && (n <=? 90))
      || ((192 <=? n) && (n <=? 222) && negb (n =? 215)))%N
  then ascii_of_N (n + 32) else c.

(** [s.lower()] *)
Fixpoint lower (s : string) : string :=
  match s with
  | EmptyString => EmptyString
  | String c s' => String (lower_char c) (lower s')
  end.

(** [s.startswith(p)] *)
Definition startswith (s p : string) : bool := prefix p s.

(** [s.startswith((p1, p2, ...))] *)
Definition startswith_any (s : string) (ps : list string) : bool :=
  existsb (startswith s) ps.

(** [needle in s] *)
Fixpoint contains (needle s : string) : bool :=
  prefix needle s ||
  match s with
  | EmptyString => false
  | String _ s' => contains needle s'
  end.

(** Truth value of a string: non-empty. *)
Definition truthy (s : string) : bool :=
  match s with EmptyString => false | String _ _ => true end.

(** The first and last characters, when there are any. *)
Definition first_char (s : string) : option ascii :=
  match s with EmptyString => None | String c _ => Some c end.

Fixpoint last_char (s : string) : option ascii :=
  match s with
  | EmptyString => None
  | String c EmptyString => Some c
  | String _ s' => last_char s'
  end.

End PyStr.

(** ** Python [dict] with insertion order *)

Module PyDict.
Section Dict.
Variable V : Type.

Definition dict := list (string * V).

(** [d[k] = v]: overwrite in place when the key is present, append
    otherwise. *)
Fixpoint set (d : dict) (k : string) (v : V) : dict :=
  match d with
  | [] => [(k, v)]
  | (k', v') :: d' =>
      if String.eqb k' k then (k', v) :: d' else (k', v') :: set d' k v
  end.

(** [d.get(k)] *)
Fixpoint get (d : dict) (k : string) : option V :=
  match d with
  | [] => None
  | (k', v') :: d' => if String.eqb k' k then Some v' else get d' k
  end.

(** [list(d.keys())] *)
Definition keys (d : dict) : list string := map fst d.

(** [dict(pairs)]: insert the pairs from left to right. *)
Definition of_pairs (l : list (string * V)) : dict :=
  fold_left (fun d kv => set d (fst kv) (snd kv)) l [].

End Dict.
End PyDict.

(** ** Exceptions, events and the effect monad *)

(** An exception is represented by its message [str(e)]. *)
Definition exn := string.

(** A request to the hosted model, as [invoke_model] receives it. *)
Record model_request := {
  req_modelId : string;
  req_anthropic_version : string;
  req_role : string;
  req_content : string;
  req_max_tokens : Z;
  req_temperature : string;
  req_top_p : string
}.

(** Calls into the external libraries and the page, in the order made. *)
Inductive event (V : Type) : Type :=
| EvGlueClient
| EvGetTables (database_name : string)
| EvBedrockClient
| EvInvokeModel (request : model_request)
| EvConnect (server database user password : option string)
| EvCursor
| EvExecute (query : string) (params : option (list V))
| EvFetchall
| EvCommit
| EvCursorExit
| EvRollback
| EvClose
| EvWarning (message : string)
| EvError (message : string)
| EvSubheader (text : string)
| EvCode (text : string)
| EvDataframe (rows : list (PyDict.dict V))
| EvPage (call : string).

Arguments EvGlueClient {V}.
Arguments EvGetTables {V}.
Arguments EvBedrockClient {V}.
Arguments EvInvokeModel {V}.
Arguments EvConnect {V}.
Arguments EvCursor {V}.
Arguments EvFetchall {V}.
Arguments EvCommit {V}.
Arguments EvCursorExit {V}.
Arguments EvRollback {V}.
Arguments EvClose {V}.
Arguments EvWarning {V}.
Arguments EvError {V}.
Arguments EvSubheader {V}.
Arguments EvCode {V}.
Arguments EvPage {V}.

(** How a call ends. *)
Inductive outcome (A : Type) : Type :=
| Returns (a : A)
| Raises (e : exn).

Arguments Raises {A}.

Module Eff.
Section Monad.
Variable V : Type.

(** A computation extends the trace and returns or raises. *)
Definition M (A : Type) : Type := list (event V) -> outcome A * list (event V).

Definition ret {A} (a : A) : M A := fun t => (Returns a, t).

Definition raise {A} (e : exn) : M A := fun t => (Raises e, t).

Definition bind {A B} (m : M A) (k : A -> M B) : M B :=
  fun t =>
    match m t with
    | (Returns a, t') => k a t'
    | (Raises e, t') => (Raises e, t')
    end.

(** Log a call. *)
Definition emit (ev : event V) : M unit := fun t => (Returns tt, t ++ [ev]).

(** A call into a library that may raise. *)
Definition call (ev : event V) (r : option exn) : M unit :=
  bind (emit ev) (fun _ => match r with None => ret tt | Some e => raise e end).

Definition call_val {A} (ev : event V) (r : exn + A) : M A :=
  bind (emit ev) (fun _ => match r with inr a => ret a | inl e => raise e end).

(** [try: m  except Exception as e: h e] *)
Definition try_except {A} (m : M A) (h : exn -> M A) : M A :=
  fun t =>
    match m t with
    | (Returns a, t') => (Returns a, t')
    | (Raises e, t') => h e t'
    end.

(** [try: m  finally: f]: [f] runs on both exits; when it raises, its
    exception replaces the outcome of [m]. *)
Definition try_finally {A} (m : M A) (f : M unit) : M A :=
  fun t =>
    match m t with
    | (r, t') =>
        match f t' with
        | (Returns _, t'') => (r, t'')
        | (Raises e, t'') => (Raises e, t'')
        end
    end.

(** [with cm: m], for a context manager whose [__exit__] does not
    suppress exceptions: [leave] runs on both exits. *)
Definition with_ {A} (leave : M unit) (m : M A) : M A := try_finally m leave.

Definition run {A} (m : M A) : outcome A * list (event V) := m [].

(** A computation is append-only when it treats the trace it starts
    from as a prefix: it behaves as from the empty trace. *)
Definition framed {A} (m : M A) : Prop :=
  forall t0, m t0 = (fst (m []), t0 ++ snd (m [])).

End Monad.

Arguments ret {V A}.
Arguments raise {V A}.
Arguments bind {V A B}.
Arguments emit {V}.
Arguments call {V}.
Arguments call_val {V A}.
Arguments try_except {V A}.
Arguments try_finally {V A}.
Arguments with_ {V A}.
Arguments run {V A}.
Arguments framed {V A}.
End Eff.

Declare Scope eff_scope.
Delimit Scope eff_scope with eff.
Notation "x <- m ;; k" := (Eff.bind m (fun x => k))
  (at level 61, m at next level, right associativity) : eff_scope.
Notation "m ;;; k" := (Eff.bind m (fun _ => k))
  (at level 61, right associativity) : eff_scope.

(** ** Fallible pure code: [inl e] raises [e] *)

Module Res.
Definition bind {A B} (r : exn + A) (k : A -> exn + B) : exn + B :=
  match r with
  | inl e => inl e
  | inr a => k a
  end.

(** [d[key]] for a key that may be absent: [KeyError(key)], whose
    message is the key between single quotes. *)
Definition getitem {A} (key : string) (o : option A) : exn + A :=
  match o with
  | Some a => inr a
  | None => inl ("'" ++ key ++ "'")%string
  end.

(** Run fallible pure code inside an effectful computation. *)
Definition lift {V A} (r : exn + A) : Eff.M V A :=
  match r with
  | inl e => Eff.raise e
  | inr a => Eff.ret a
  end.
End Res.

Declare Scope res_scope.
Delimit Scope res_scope with res.
Notation "x <- m ;; k" := (Res.bind m (fun x => k))
  (at level 61, m at next level, right associativity) : res_scope.

(** The double quote, the backslash and the line feed. *)
Definition dq : string := String (ascii_of_N 34) EmptyString.
Definition bs : string := String (ascii_of_N 92) EmptyString.
Definition nl : string := String (ascii_of_N 10) EmptyString.

(** ** Query executor: [execute_sql_query] *)

Module Executor.
Section Executor.
Variable V : Type.

(** The entries of [SQL_SERVER_CONN] the executor reads; each is the
    value of [os.getenv], [None] when the variable is unset. *)
Record config := {
  server : option string;
  database : option string;
  uid : option string;
  pwd : option string
}.

(** An entry of [cursor.description]; [column[0]] is the name. *)
Record column := {
  column_name : string;
  column_type_code : Z
}.

(** The outcomes of the driver calls of one execution.  [None] in an
    [option exn] field means the call returns. *)
Record world := {
  db_connect : option string -> option string -> option string ->
               option string -> option exn;
  db_cursor : option exn;
  db_execute : string -> option (list V) -> option exn;
  db_description : option (list column);
  db_fetchall : exn + list (list V);
  db_commit : option exn;
  db_cursor_exit : option exn;
  db_rollback : option exn;
  db_close : option exn
}.

(** Truth value of a configuration entry: set and non-empty. *)
Definition entry_truthy (o : option string) : bool :=
  match o with
  | Some s => PyStr.truthy s
  | None => false
  end.

(** Truth value of [params]: a non-empty tuple. *)
Definition params_truthy (params : option (list V)) : bool :=
  match params with
  | Some (_ :: _) => true
  | _ => false
  end.

(** [query.lower().strip().startswith(('insert', 'update', 'delete'))] *)
Definition is_mutation (query : string) : bool :=
  PyStr.startswith_any (PyStr.strip (PyStr.lower query))
    ["insert"; "update"; "delete"].

(** [[column[0] for column in cursor.description]]: iterating [None]
    raises [TypeError]. *)
Definition column_names (w : world) : Eff.M V (list string) :=
  match db_description w with
  | Some cols => Eff.ret (map column_name cols)
  | None => Eff.raise "'NoneType' object is not iterable"
  end.

(** [dict(zip(column_names, row))] *)
Definition row_dict (names : list string) (row : list V) : PyDict.dict V :=
  PyDict.of_pairs (combine names row).

Local Open Scope eff_scope.

(** The body of the [with conn.cursor() as cursor:] block. *)
Definition cursor_block (w : world) (query : string)
    (params : option (list V)) : Eff.M V (list (PyDict.dict V)) :=
  (if params_truthy params
   then Eff.call (EvExecute query params) (db_execute w query params)
   else Eff.call (EvExecute query None) (db_execute w query None)) ;;;
  names <- column_names w ;;
  results <- Eff.call_val EvFetchall (db_fetchall w) ;;
  let results_with_columns := map (row_dict names) results in
  (if is_mutation query
   then Eff.call EvCommit (db_commit w)
   else Eff.ret tt) ;;;
  Eff.ret results_with_columns.

Definition execute_sql_query (cfg : config) (w : world) (query : string)
    (params : option (list V)) : Eff.M V (list (PyDict.dict V)) :=
  Eff.try_except
    (let server := server cfg in
     let database := database cfg in
     let username := uid cfg in
     let password := pwd cfg in
     if negb (forallb entry_truthy [server; database; username; password])
     then Eff.raise "Missing database connection parameters"
     else
       Eff.call (EvConnect server database username password)
                (db_connect w server database username password) ;;;
       Eff.try_finally
         (Eff.try_except
            (Eff.call EvCursor (db_cursor w) ;;;
             Eff.with_ (Eff.call EvCursorExit (db_cursor_exit w))
                       (cursor_block w query params))
            (fun e =>
               Eff.call EvRollback (db_rollback w) ;;;
               Eff.raise ("Error executing query: " ++ e)%string))
         (Eff.call EvClose (db_close w)))
    (fun e => Eff.raise ("Database connection error: " ++ e)%string).

(** Classification of events, for counting calls in a trace. *)
Definition is_connect (ev : event V) : bool :=
  match ev with EvConnect _ _ _ _ => true | _ => false end.
Definition is_execute (ev : event V) : bool :=
  match ev with EvExecute _ _ => true | _ => false end.
Definition is_commit (ev : event V) : bool :=
  match ev with EvCommit => true | _ => false end.
Definition is_rollback (ev : event V) : bool :=
  match ev with EvRollback => true | _ => false end.
Definition is_close (ev : event V) : bool :=
  match ev with EvClose => true | _ => false end.

(** The calls into the database driver. *)
Definition is_db_event (ev : event V) : bool :=
  match ev with
  | EvConnect _ _ _ _ | EvCursor | EvExecute _ _ | EvFetchall | EvCommit
  | EvCursorExit | EvRollback | EvClose => true
  | _ => false
  end.

Definition calls (p : event V -> bool) (t : list (event V)) : nat :=
  length (filter p t).

(** The connection is established: the configuration is complete and
    [pymssql.connect] returns. *)
Definition connected (cfg : config) (w : world) : Prop :=
  forallb entry_truthy [server cfg; database cfg; uid cfg; pwd cfg] = true /\
  db_connect w (server cfg) (database cfg) (uid cfg) (pwd cfg) = None.

(** The argument [cursor.execute] is given for [params]. *)
Definition execute_arg (params : option (list V)) : option (list V) :=
  if params_truthy params then params else None.

End Executor.

Arguments Build_world {V}.
Arguments is_commit {V}.
Arguments is_rollback {V}.
Arguments is_close {V}.
Arguments is_connect {V}.
Arguments is_execute {V}.
Arguments is_db_event {V}.
End Executor.

(** ** JSON values, [json.dumps(_, indent=2)] and subscripting *)

Module Json.

(** A Python object made of [None], booleans, integers, strings, lists
    and dictionaries with string keys. *)
#[warnings="-register-all"]
Inductive value : Type :=
| Null
| Bool (b : bool)
| Num (n : Z)
| Str (s : string)
| Arr (items : list value)
| Obj (members : list (string * value)).

Definition hex_digit (n : N) : ascii :=
  if (n <? 10)%N then ascii_of_N (48 + n) else ascii_of_N (87 + n).

(** [encode_basestring_ascii] on one character: the quote and the
    backslash get a backslash, the usual control characters their
    letter, and everything else outside U+0020..U+007E becomes a
    [\u00xx] escape. *)
Definition escape_char (c : ascii) : string :=
  let n := N_of_ascii c in
  if (n =? 34)%N then bs ++ dq
  else if (n =? 92)%N then bs ++ bs
  else if (n =? 10)%N then bs ++ "n"
  else if (n =? 13)%N then bs ++ "r"
  else if (n =? 9)%N then bs ++ "t"
  else if (n =? 8)%N then bs ++ "b"
  else if (n =? 12)%N then bs ++ "f"
  else if ((32 <=? n) && (n <=? 126))%N then String c EmptyString
  else bs ++ "u00" ++ String (hex_digit (n / 16)) (String (hex_digit (n mod 16)) EmptyString).

Fixpoint escape (s : string) : string :=
  match s with
  | EmptyString => EmptyString
  | String c s' => escape_char c ++ escape s'
  end.

(** A string literal. *)
Definition quote (s : string) : string := dq ++ escape s ++ dq.

(** The characters a string literal shows as they are: U+0020..U+007E
    without the quote and the backslash. *)
Definition plain_char (c : ascii) : bool :=
  let n := N_of_ascii c in
  ((32 <=? n) && (n <=? 126) && negb (n =? 34) && negb (n =? 92))%N.

Definition plain (s : string) : bool :=
  forallb plain_char (list_ascii_of_string s).

Fixpoint spaces (n : nat) : string :=
  match n with
  | O => EmptyString
  | S n' => String " " (spaces n')
  end.

(** A line break followed by the indentation of [level]. *)
Definition newline_indent (level : nat) : string := nl ++ spaces (2 * level).

Definition decimal (n : Z) : string :=
  DecimalString.NilZero.string_of_int (Z.to_int n).

(** [json.dumps(v, indent=2)] with [v] at nesting depth [level]. *)
Fixpoint dumps_at (level : nat) (v : value) : string :=
  match v with
  | Null => "null"
  | Bool true => "true"
  | Bool false => "false"
  | Num n => decimal n
  | Str s => quote s
  | Arr [] => "[]"
  | Arr items =>
      "[" ++ newline_indent (S level)
      ++ String.concat ("," ++ newline_indent (S level))
           (map (dumps_at (S level)) items)
      ++ newline_indent level ++ "]"
  | Obj [] => "{}"
  | Obj members =>
      "{" ++ newline_indent (S level)
      ++ String.concat ("," ++ newline_indent (S level))
           (map (fun kv : string * value => let (k, x) := kv in
                           quote k ++ ": " ++ dumps_at (S level) x) members)
      ++ newline_indent level ++ "}"
  end%string.

Definition dumps (v : value) : string := dumps_at 0 v.

(** [v[key]] for a string key. *)
Definition getitem (v : value) (key : string) : exn + value :=
  match v with
  | Obj members => Res.getitem key (PyDict.get members key)
  | Arr _ => inl "list indices must be integers or slices, not str"
  | Str _ => inl "string indices must be integers, not 'str'"
  | Null => inl "'NoneType' object is not subscriptable"
  | Bool _ => inl "'bool' object is not subscriptable"
  | Num _ => inl "'int' object is not subscriptable"
  end.

(** [v[0]] *)
Definition getitem0 (v : value) : exn + value :=
  match v with
  | Arr (x :: _) => inr x
  | Arr [] => inl "list index out of range"
  | Str (String c _) => inr (Str (String c EmptyString))
  | Str EmptyString => inl "string index out of range"
  | Obj _ => inl "0"
  | Null => inl "'NoneType' object is not subscriptable"
  | Bool _ => inl "'bool' object is not subscriptable"
  | Num _ => inl "'int' object is not subscriptable"
  end.

(** [v.strip()] *)
Definition strip (v : value) : exn + string :=
  match v with
  | Str s => inr (PyStr.strip s)
  | Null => inl "'NoneType' object has no attribute 'strip'"
  | Bool _ => inl "'bool' object has no attribute 'strip'"
  | Num _ => inl "'int' object has no attribute 'strip'"
  | Arr _ => inl "'list' object has no attribute 'strip'"
  | Obj _ => inl "'dict' object has no attribute 'strip'"
  end.

End Json.

(** ** Metadata fetcher: [get_table_metadata] *)

Module Catalog.

(** What the fetcher keeps of a table. *)
Record table_info := {
  columns : list string;
  description : string;
  column_types : PyDict.dict string
}.

(** The metadata map, keyed by table name. *)
Definition metadata := PyDict.dict table_info.

(** The catalog's answer as the code reads it; [None] is an absent key. *)
Record glue_column := {
  col_Name : option string;
  col_Type : option string
}.

Record storage_descriptor := {
  sd_Columns : option (list glue_column)
}.

Record glue_table := {
  tbl_Name : option string;
  tbl_StorageDescriptor : option storage_descriptor;
  tbl_Description : option string
}.

Record response := {
  resp_TableList : option (list glue_table)
}.

(** The outcomes of the calls into the AWS SDK. *)
Record world := {
  glue_client : option exn;
  glue_get_tables : string -> exn + response
}.

Definition target_tables : list string := ["xtstock2025"].

Local Open Scope res_scope.

(** [table['StorageDescriptor']['Columns']] *)
Definition table_columns (table : glue_table) : exn + list glue_column :=
  sd <- Res.getitem "StorageDescriptor" (tbl_StorageDescriptor table) ;;
  Res.getitem "Columns" (sd_Columns sd).

(** [[col['Name'] for col in cols]] *)
Fixpoint column_names (cols : list glue_column) : exn + list string :=
  match cols with
  | [] => inr []
  | col :: rest =>
      name <- Res.getitem "Name" (col_Name col) ;;
      names <- column_names rest ;;
      inr (name :: names)
  end.

(** [{col['Name']: col['Type'] for col in cols}], continuing from [d]. *)
Fixpoint column_type_map (cols : list glue_column) (d : PyDict.dict string)
    : exn + PyDict.dict string :=
  match cols with
  | [] => inr d
  | col :: rest =>
      name <- Res.getitem "Name" (col_Name col) ;;
      type <- Res.getitem "Type" (col_Type col) ;;
      column_type_map rest (PyDict.set d name type)
  end.

(** The dictionary stored for a target table. *)
Definition table_entry (table : glue_table) : exn + table_info :=
  cols <- table_columns table ;;
  names <- column_names cols ;;
  let descr :=
    match tbl_Description table with
    | Some d => d
    | None => EmptyString
    end in
  cols' <- table_columns table ;;
  types <- column_type_map cols' [] ;;
  inr {| columns := names; description := descr; column_types := types |}.

(** The loop over [response['TableList']], continuing from [md]. *)
Fixpoint scan (tables : list glue_table) (md : metadata) : exn + metadata :=
  match tables with
  | [] => inr md
  | table :: rest =>
      name <- Res.getitem "Name" (tbl_Name table) ;;
      if existsb (String.eqb name) target_tables
      then
        entry <- table_entry table ;;
        scan rest (PyDict.set md name entry)
      else scan rest md
  end.

Local Close Scope res_scope.

Section Fetch.
Variable V : Type.
Local Open Scope eff_scope.

(** Truth value of a dictionary: non-empty. *)
Definition dict_truthy {A} (d : PyDict.dict A) : bool :=
  match d with [] => false | _ :: _ => true end.

(** [None] is the Python [None] returned after an error. *)
Definition get_table_metadata (w : world) : Eff.M V (option metadata) :=
  Eff.call EvGlueClient (glue_client w) ;;;
  Eff.try_except
    (response <- Eff.call_val (EvGetTables "sqlserver_metadata")
                   (glue_get_tables w "sqlserver_metadata") ;;
     tables <- Res.lift (Res.getitem "TableList" (resp_TableList response)) ;;
     md <- Res.lift (scan tables []) ;;
     (if negb (dict_truthy md)
      then Eff.emit (EvWarning "No target tables found in the Glue Catalog")
      else Eff.ret tt) ;;;
     Eff.ret (Some md))
    (fun e =>
       Eff.emit (EvError ("Error fetching metadata: " ++ e)%string) ;;;
       Eff.ret None).
End Fetch.

Arguments get_table_metadata V w : clear implicits.

(** The metadata as the object [json.dumps] receives. *)
Definition info_json (i : table_info) : Json.value :=
  Json.Obj [
    ("columns", Json.Arr (map Json.Str (columns i)));
    ("description", Json.Str (description i));
    ("column_types",
     Json.Obj (map (fun kv => (fst kv, Json.Str (snd kv))) (column_types i)))
  ].

Definition metadata_json (md : option metadata) : Json.value :=
  match md with
  | None => Json.Null
  | Some d => Json.Obj (map (fun kv => (fst kv, info_json (snd kv))) d)
  end.

End Catalog.

(** ** Query generator: [generate_sql_query] *)

Module Generator.

(** The template up to the schema. *)
Definition prompt_head : string :=
  (String.concat nl [
    "Given the following database schema:";
    "        "
  ])%string.

(** The template between the schema and the question. *)
Definition prompt_middle : string :=
  (String.concat nl [
    EmptyString;
    EmptyString;
    "        Convert this natural language query to SQL:";
    "        "
  ])%string.

(** The template after the question: the rules and the five examples. *)
Definition prompt_tail : string :=
  (String.concat nl [
    EmptyString;
    EmptyString;
    "        Rules:";
    "        1. Use proper SQL Server syntax.";
    "        2. Query from the `xtstock2025` table.";
    "        3. Use column names exactly as specified in the schema.";
    "        4. If filtering by date, use `stocksourcedate`.";
    "        5. If filtering by stock quantity, use `stockqty`.";
    "        6. Return only the SQL query without any explanation.";
    "        ";
    "        Examples:";
    EmptyString;
    "        **Example 1:**";
    "        Natural language query: " ++ dq ++ "Get all stock details for category 'Apparel'." ++ dq;
    "        SQL Query:";
    "        ```";
    "        SELECT * FROM xtstock2025 WHERE category = 'Apparel';";
    "        ```";
    EmptyString;
    "        **Example 2:**";
    "        Natural language query: " ++ dq ++ "Find total stock quantity for site 'AdhocFabric'." ++ dq;
    "        SQL Query:";
    "        ```";
    "        SELECT SUM(stockqty) AS total_stock FROM xtstock2025 WHERE sitename = 'AdhocFabric';";
    "        ```";
    EmptyString;
    "        **Example 3:**";
    "        Natural language query: " ++ dq ++ "Show all red articles in size 'M' with stock greater than 10." ++ dq;
    "        SQL Query:";
    "        ```";
    "        SELECT * FROM xtstock2025 ";
    "        WHERE colorname = 'Red' AND sizename = 'M' AND stockqty > 10;";
    "        ```";
    EmptyString;
    "        **Example 4:**";
    "        Natural language query: " ++ dq ++ "Get stock value for 'Blue' articles older than 30 days." ++ dq;
    "        SQL Query:";
    "        ```";
    "        SELECT SUM(stockvalue) AS total_stock_value FROM xtstock2025 ";
    "        WHERE colorname = 'Blue' AND stockageindays > 30;";
    "        ```";
    EmptyString;
    "        **Example 5:**";
    "        Natural language query: " ++ dq ++ "Find stock added after January 1, 2024." ++ dq;
    "        SQL Query:";
    "        ```";
    "        SELECT * FROM xtstock2025 WHERE stocksourcedate > '2024-01-01';";
    "        ```";
    EmptyString;
    "        Now generate the SQL query based on the given natural language query."
  ])%string.

(** The content of the single user message. *)
Definition prompt (natural_language_query : string)
    (md : option Catalog.metadata) : string :=
  (prompt_head ++ Json.dumps (Catalog.metadata_json md) ++ prompt_middle
   ++ natural_language_query ++ prompt_tail)%string.

Definition request (content : string) : model_request :=
  {| req_modelId := "anthropic.claude-3-sonnet-20240229-v1:0";
     req_anthropic_version := "bedrock-2023-05-31";
     req_role := "user";
     req_content := content;
     req_max_tokens := 500;
     req_temperature := "0.1";
     req_top_p := "0.9" |}.

(** The outcomes of the calls into the AWS SDK: creating the client,
    [invoke_model] (the inner sum is the outcome of
    [json.loads(response['body'].read())]), and the text
    [traceback.format_exc()] gives for an exception. *)
Record world := {
  br_client : option exn;
  br_invoke : model_request -> exn + (exn + Json.value);
  br_traceback : exn -> string
}.

Local Open Scope res_scope.

(** [response_body['content'][0]['text'].strip()] *)
Definition completion_text (response_body : Json.value) : exn + string :=
  content <- Json.getitem response_body "content" ;;
  first <- Json.getitem0 content ;;
  text <- Json.getitem first "text" ;;
  Json.strip text.

Local Close Scope res_scope.

Section Generate.
Variable V : Type.
Local Open Scope eff_scope.

Definition generate_sql_query (w : world) (natural_language_query : string)
    (md : option Catalog.metadata) : Eff.M V (option string) :=
  Eff.call EvBedrockClient (br_client w) ;;;
  let messages := prompt natural_language_query md in
  Eff.try_except
    (loaded <- Eff.call_val (EvInvokeModel (request messages))
                 (br_invoke w (request messages)) ;;
     response_body <- Res.lift loaded ;;
     text <- Res.lift (completion_text response_body) ;;
     Eff.ret (Some text))
    (fun e =>
       Eff.emit (EvError ("Error generating SQL: " ++ e)%string) ;;;
       Eff.emit (EvError ("Traceback: " ++ br_traceback w e)%string) ;;;
       Eff.ret None).
End Generate.

Arguments generate_sql_query V w natural_language_query md : clear implicits.

End Generator.

(** ** The page: [main] *)

Module Page.
Section Main.
Variable V : Type.
Local Open Scope eff_scope.

(** What the widgets return on this run, and what reading
    [st.session_state.metadata] gives: the stored object, or the
    error raised when nothing was stored under that name. *)
Record inputs := {
  user_input : string;
  execute_query : bool;
  submit_button : bool;
  session_metadata : exn + option Catalog.metadata
}.

(** Truth value of the generator's result: neither [None] nor empty. *)
Definition sql_truthy (sql_query : option string) : bool :=
  match sql_query with
  | Some s => PyStr.truthy s
  | None => false
  end.

Definition main (inp : inputs) (gw : Generator.world)
    (cfg : Executor.config) (dw : Executor.world V) : Eff.M V unit :=
  Eff.emit (EvPage "set_page_config") ;;;
  Eff.emit (EvPage "title") ;;;
  Eff.emit (EvPage "markdown") ;;;
  Eff.emit (EvPage "columns") ;;;
  Eff.emit (EvPage "text_area") ;;;
  Eff.emit (EvPage "checkbox") ;;;
  Eff.emit (EvPage "button") ;;;
  if submit_button inp && PyStr.truthy (user_input inp)
  then
    Eff.emit (EvPage "spinner") ;;;
    md <- Res.lift (session_metadata inp) ;;
    sql_query <- Generator.generate_sql_query V gw (user_input inp) md ;;
    match sql_query with
    | Some sql =>
        if PyStr.truthy sql
        then
          Eff.emit (EvSubheader "Generated SQL Query:") ;;;
          Eff.emit (EvCode sql) ;;;
          if execute_query inp
          then
            results <- Executor.execute_sql_query cfg dw sql None ;;
            Eff.emit (EvSubheader "Query Results:") ;;;
            Eff.emit (EvDataframe results)
          else Eff.ret tt
        else Eff.ret tt
    | None => Eff.ret tt
    end
  else Eff.ret tt.

(** Events that show the generator at work: it creates its client
    first, then calls the model. *)
Definition is_bedrock_client (ev : event V) : bool :=
  match ev with EvBedrockClient => true | _ => false end.
Definition is_invoke_model (ev : event V) : bool :=
  match ev with EvInvokeModel _ => true | _ => false end.
Definition is_warning (ev : event V) : bool :=
  match ev with EvWarning _ => true | _ => false end.
Definition is_error (ev : event V) : bool :=
  match ev with EvError _ => true | _ => false end.
End Main.

Arguments is_bedrock_client {V}.
Arguments is_invoke_model {V}.
Arguments is_warning {V}.
Arguments is_error {V}.
End Page.

(** ** Sample inputs *)

Module Samples.

Definition cfg : Executor.config :=
  {| Executor.server := Some "db.example";
     Executor.database := Some "stock";
     Executor.uid := Some "app";
     Executor.pwd := Some "secret" |}.

(** No password in the environment. *)
Definition cfg_no_password : Executor.config :=
  {| Executor.server := Some "db.example";
     Executor.database := Some "stock";
     Executor.uid := Some "app";
     Executor.pwd := None |}.

Definition stock_columns : list Executor.column :=
  [ {| Executor.column_name := "category"; Executor.column_type_code := 1 |};
    {| Executor.column_name := "stockqty"; Executor.column_type_code := 3 |} ].

Definition stock_rows : list (list Z) := [[7; 10]; [7; 25]]%Z.

(** Every driver call returns; the statement yields two rows. *)
Definition db_ok : Executor.world Z :=
  {| Executor.db_connect := fun _ _ _ _ => None;
     Executor.db_cursor := None;
     Executor.db_execute := fun _ _ => None;
     Executor.db_description := Some stock_columns;
     Executor.db_fetchall := inr stock_rows;
     Executor.db_commit := None;
     Executor.db_cursor_exit := None;
     Executor.db_rollback := None;
     Executor.db_close := None |}.

(** The statement is rejected by the server. *)
Definition db_bad_statement : Executor.world Z :=
  {| Executor.db_connect := fun _ _ _ _ => None;
     Executor.db_cursor := None;
     Executor.db_execute := fun _ _ => Some "Invalid object name";
     Executor.db_description := None;
     Executor.db_fetchall := inl "Statement not executed";
     Executor.db_commit := None;
     Executor.db_cursor_exit := None;
     Executor.db_rollback := None;
     Executor.db_close := None |}.

(** The statement is rejected and the rollback fails as well. *)
Definition db_rollback_fails : Executor.world Z :=
  {| Executor.db_connect := fun _ _ _ _ => None;
     Executor.db_cursor := None;
     Executor.db_execute := fun _ _ => Some "Invalid object name";
     Executor.db_description := None;
     Executor.db_fetchall := inl "Statement not executed";
     Executor.db_commit := None;
     Executor.db_cursor_exit := None;
     Executor.db_rollback := Some "Connection is closed";
     Executor.db_close := None |}.

Definition update_query : string :=
  "UPDATE xtstock2025 SET stockqty = 0 OUTPUT inserted.category, inserted.stockqty".

Definition select_query : string :=
  "SELECT category, stockqty FROM xtstock2025".

(** A catalog with the target table and one other table. *)
Definition stock_table : Catalog.glue_table :=
  {| Catalog.tbl_Name := Some "xtstock2025";
     Catalog.tbl_StorageDescriptor :=
       Some {| Catalog.sd_Columns :=
                 Some [ {| Catalog.col_Name := Some "category";
                           Catalog.col_Type := Some "varchar" |};
                        {| Catalog.col_Name := Some "stockqty";
                           Catalog.col_Type := Some "int" |} ] |};
     Catalog.tbl_Description := Some "Stock per article" |}.

Definition orders_table : Catalog.glue_table :=
  {| Catalog.tbl_Name := Some "xtbuyerorder";
     Catalog.tbl_StorageDescriptor :=
       Some {| Catalog.sd_Columns := Some [] |};
     Catalog.tbl_Description := None |}.

Definition glue_ok : Catalog.world :=
  {| Catalog.glue_client := None;
     Catalog.glue_get_tables := fun _ =>
       inr {| Catalog.resp_TableList := Some [orders_table; stock_table] |} |}.

(** A catalog without the target table. *)
Definition glue_no_target : Catalog.world :=
  {| Catalog.glue_client := None;
     Catalog.glue_get_tables := fun _ =>
       inr {| Catalog.resp_TableList := Some [orders_table] |} |}.

(** No AWS region is configured: creating the client raises. *)
Definition glue_no_region : Catalog.world :=
  {| Catalog.glue_client := Some "You must specify a region.";
     Catalog.glue_get_tables := fun _ =>
       inr {| Catalog.resp_TableList := Some [] |} |}.

Definition stock_metadata : Catalog.metadata :=
  [ ("xtstock2025",
     {| Catalog.columns := ["category"; "stockqty"];
        Catalog.description := "Stock per article";
        Catalog.column_types := [("category", "varchar"); ("stockqty", "int")] |}) ].

(** The model answers with the statement inside a code fence. *)
Definition fence : string := "```".

Definition fenced_completion : string :=
  (nl ++ fence ++ "sql" ++ nl ++ "SELECT * FROM xtstock2025;" ++ nl ++ fence
   ++ nl)%string.

Definition response_body (text : string) : Json.value :=
  Json.Obj [ ("type", Json.Str "message");
             ("role", Json.Str "assistant");
             ("content", Json.Arr [ Json.Obj [ ("type", Json.Str "text");
                                               ("text", Json.Str text) ] ]);
             ("stop_reason", Json.Str "end_turn") ].

Definition bedrock_answers (text : string) : Generator.world :=
  {| Generator.br_client := None;
     Generator.br_invoke := fun _ => inr (inr (response_body text));
     Generator.br_traceback := fun e => ("Exception: " ++ e)%string |}.

(** No AWS region is configured: creating the client raises. *)
Definition bedrock_no_region : Generator.world :=
  {| Generator.br_client := Some "You must specify a region.";
     Generator.br_invoke := fun _ => inl "unreachable";
     Generator.br_traceback := fun e => ("Exception: " ++ e)%string |}.

(** A column whose name has the letters U+00F6 and U+00DF. *)
Definition groesse : string :=
  ("gr" ++ String (ascii_of_N 246) (String (ascii_of_N 223) "e"))%string.

Definition sizes_metadata : Catalog.metadata :=
  [ ("xtstock2025",
     {| Catalog.columns := [groesse];
        Catalog.description := EmptyString;
        Catalog.column_types := [(groesse, "int")] |}) ].

Definition page_inputs (md : option Catalog.metadata) : Page.inputs :=
  {| Page.user_input := "Get all stock details for category 'Apparel'.";
     Page.execute_query := true;
     Page.submit_button := true;
     Page.session_metadata := inr md |}.

End Samples.

(** ** Shapes of catalog answers, and further sample inputs *)

Module Shape.

(** [table['Name'] in target_tables], for a table that has a name. *)
Definition is_target (table : Catalog.glue_table) : bool :=
  match Catalog.tbl_Name table with
  | Some name => existsb (String.eqb name) Catalog.target_tables
  | None => false
  end.

(** The table has the key ['Name']. *)
Definition named (table : Catalog.glue_table) : bool :=
  match Catalog.tbl_Name table with
  | Some _ => true
  | None => false
  end.

(** Every character of the string is whitespace. *)
Definition blank (s : string) : bool :=
  forallb PyStr.isspace (list_ascii_of_string s).

(** The call [st.dataframe]. *)
Definition is_dataframe {V} (ev : event V) : bool :=
  match ev with EvDataframe _ => true | _ => false end.

(** The calls into the catalog: creating its client, [get_tables]. *)
Definition is_catalog_call {V} (ev : event V) : bool :=
  match ev with EvGlueClient | EvGetTables _ => true | _ => false end.

(** The call [st.code]. *)
Definition is_code {V} (ev : event V) : bool :=
  match ev with EvCode _ => true | _ => false end.

(** What [main] draws on every run, and on every submission. *)
Definition page_calls {V} : list (event V) :=
  [EvPage "set_page_config"; EvPage "title"; EvPage "markdown";
   EvPage "columns"; EvPage "text_area"; EvPage "checkbox";
   EvPage "button"; EvPage "spinner"].

End Shape.

Module Cases.

(** [pymssql.connect] is refused. *)
Definition db_unreachable : Executor.world Z :=
  {| Executor.db_connect := fun _ _ _ _ => Some "Login failed";
     Executor.db_cursor := None;
     Executor.db_execute := fun _ _ => None;
     Executor.db_description := Some Samples.stock_columns;
     Executor.db_fetchall := inr Samples.stock_rows;
     Executor.db_commit := None;
     Executor.db_cursor_exit := None;
     Executor.db_rollback := None;
     Executor.db_close := None |}.

(** The statement runs and leaves no result set. *)
Definition db_no_result_set : Executor.world Z :=
  {| Executor.db_connect := fun _ _ _ _ => None;
     Executor.db_cursor := None;
     Executor.db_execute := fun _ _ => None;
     Executor.db_description := None;
     Executor.db_fetchall := inl "Statement not executed or executed statement has no resultset";
     Executor.db_commit := None;
     Executor.db_cursor_exit := None;
     Executor.db_rollback := None;
     Executor.db_close := None |}.

(** Everything works up to the commit. *)
Definition db_commit_fails : Executor.world Z :=
  {| Executor.db_connect := fun _ _ _ _ => None;
     Executor.db_cursor := None;
     Executor.db_execute := fun _ _ => None;
     Executor.db_description := Some Samples.stock_columns;
     Executor.db_fetchall := inr Samples.stock_rows;
     Executor.db_commit := Some "Transaction was deadlocked";
     Executor.db_cursor_exit := None;
     Executor.db_rollback := None;
     Executor.db_close := None |}.

(** Everything works except closing the connection. *)
Definition db_close_fails : Executor.world Z :=
  {| Executor.db_connect := fun _ _ _ _ => None;
     Executor.db_cursor := None;
     Executor.db_execute := fun _ _ => None;
     Executor.db_description := Some Samples.stock_columns;
     Executor.db_fetchall := inr Samples.stock_rows;
     Executor.db_commit := None;
     Executor.db_cursor_exit := None;
     Executor.db_rollback := None;
     Executor.db_close := Some "Connection reset" |}.

(** A catalog entry without the key ['Name']. *)
Definition nameless_table : Catalog.glue_table :=
  {| Catalog.tbl_Name := None;
     Catalog.tbl_StorageDescriptor := None;
     Catalog.tbl_Description := None |}.

(** A table that is not a target and has no storage descriptor. *)
Definition view_table : Catalog.glue_table :=
  {| Catalog.tbl_Name := Some "v_orders";
     Catalog.tbl_StorageDescriptor := None;
     Catalog.tbl_Description := None |}.

(** A second entry for the target table, with one column. *)
Definition stock_table_v2 : Catalog.glue_table :=
  {| Catalog.tbl_Name := Some "xtstock2025";
     Catalog.tbl_StorageDescriptor :=
       Some {| Catalog.sd_Columns :=
                 Some [ {| Catalog.col_Name := Some "sitename";
                           Catalog.col_Type := Some "varchar" |} ] |};
     Catalog.tbl_Description := None |}.

Definition glue_answers (tables : list Catalog.glue_table) : Catalog.world :=
  {| Catalog.glue_client := None;
     Catalog.glue_get_tables := fun _ =>
       inr {| Catalog.resp_TableList := Some tables |} |}.

(** The model call itself fails. *)
Definition bedrock_throttled : Generator.world :=
  {| Generator.br_client := None;
     Generator.br_invoke := fun _ => inl "ThrottlingException";
     Generator.br_traceback := fun e => ("Exception: " ++ e)%string |}.

(** Nothing is stored under [st.session_state.metadata]. *)
Definition page_inputs_no_session : Page.inputs :=
  {| Page.user_input := "Get all stock details for category 'Apparel'.";
     Page.execute_query := true;
     Page.submit_button := true;
     Page.session_metadata := inl "st.session_state has no attribute metadata" |}.

(** The button was not pressed. *)
Definition page_inputs_idle : Page.inputs :=
  {| Page.user_input := "Get all stock details for category 'Apparel'.";
     Page.execute_query := true;
     Page.submit_button := false;
     Page.session_metadata := inr (Some Samples.stock_metadata) |}.

(** The box "Execute query after generation" is not ticked. *)
Definition page_inputs_no_execute : Page.inputs :=
  {| Page.user_input := "Get all stock details for category 'Apparel'.";
     Page.execute_query := false;
     Page.submit_button := true;
     Page.session_metadata := inr (Some Samples.stock_metadata) |}.

End Cases.

(** * Properties *)

(** ** Sample runs *)

Example strip_sample :
  PyStr.strip ("  SELECT 1; " ++ nl)%string = "SELECT 1;".
Proof. reflexivity. Qed.

Example is_mutation_samples :
  Executor.is_mutation "  Update t SET x=1" = true /\
  Executor.is_mutation "DELETE FROM t" = true /\
  Executor.is_mutation "insert into t values (1)" = true /\
  Executor.is_mutation "SELECT * FROM t" = false /\
  Executor.is_mutation "WITH d AS (SELECT 1) DELETE FROM t" = false.
Proof. repeat split; reflexivity. Qed.

Example row_dict_samples :
  Executor.row_dict ["a"; "b"] [1; 2]%Z = [("a", 1); ("b", 2)]%Z /\
  Executor.row_dict ["a"; "a"] [1; 2]%Z = [("a", 2)]%Z /\
  Executor.row_dict ["a"; "b"] [1]%Z = [("a", 1)]%Z.
Proof. repeat split; reflexivity. Qed.

Example select_sample :
  Eff.run (Executor.execute_sql_query Samples.cfg Samples.db_ok
             Samples.select_query None) =
    (Returns [[("category", 7); ("stockqty", 10)];
              [("category", 7); ("stockqty", 25)]]%Z,
     [EvConnect (Some "db.example") (Some "stock") (Some "app") (Some "secret");
      EvCursor; EvExecute Samples.select_query None; EvFetchall;
      EvCursorExit; EvClose]).
Proof. reflexivity. Qed.

Example bad_statement_sample :
  Eff.run (Executor.execute_sql_query Samples.cfg Samples.db_bad_statement
             Samples.select_query None) =
    (Raises
       "Database connection error: Error executing query: Invalid object name",
     [EvConnect (Some "db.example") (Some "stock") (Some "app") (Some "secret");
      EvCursor; EvExecute Samples.select_query None; EvCursorExit;
      EvRollback; EvClose]).
Proof. reflexivity. Qed.

Example fetch_sample :
  Eff.run (Catalog.get_table_metadata Z Samples.glue_ok) =
    (Returns (Some Samples.stock_metadata),
     [EvGlueClient; EvGetTables "sqlserver_metadata"]).
Proof. reflexivity. Qed.

Example fetch_no_target_sample :
  Eff.run (Catalog.get_table_metadata Z Samples.glue_no_target) =
    (Returns (Some []),
     [EvGlueClient; EvGetTables "sqlserver_metadata";
      EvWarning "No target tables found in the Glue Catalog"]).
Proof. reflexivity. Qed.

Example schema_sample :
  Json.dumps (Catalog.metadata_json (Some Samples.stock_metadata)) =
    String.concat nl
      [ "{";
        "  " ++ dq ++ "xtstock2025" ++ dq ++ ": {";
        "    " ++ dq ++ "columns" ++ dq ++ ": [";
        "      " ++ dq ++ "category" ++ dq ++ ",";
        "      " ++ dq ++ "stockqty" ++ dq;
        "    ],";
        "    " ++ dq ++ "description" ++ dq ++ ": " ++ dq ++ "Stock per article" ++ dq ++ ",";
        "    " ++ dq ++ "column_types" ++ dq ++ ": {";
        "      " ++ dq ++ "category" ++ dq ++ ": " ++ dq ++ "varchar" ++ dq ++ ",";
        "      " ++ dq ++ "stockqty" ++ dq ++ ": " ++ dq ++ "int" ++ dq;
        "    }";
        "  }";
        "}" ]%string.
Proof. reflexivity. Qed.

(** Unfold the effect combinators, then split on every call outcome. *)
Ltac eff_unfold :=
  cbv [Eff.run Eff.bind Eff.ret Eff.raise Eff.emit Eff.call Eff.call_val
       Eff.try_except Eff.try_finally Eff.with_ Res.lift Res.getitem].

Ltac eff_cases :=
  repeat (cbn beta iota;
          match goal with
          | |- context [match ?x with _ => _ end] =>
              lazymatch x with
              | context [match _ with _ => _ end] => fail
              | _ => destruct x eqn:?
              end
          end);
  cbn beta iota.

Ltac eff_inj :=
  cbn in *; try discriminate;
  repeat match goal with
         | H : (_, _) = (_, _) |- _ => inversion H; subst; clear H
         | H : Raises _ = Raises _ |- _ => inversion H; subst; clear H
         | H : Returns _ = Returns _ |- _ => inversion H; subst; clear H
         end.

(** ** The executor *)

Section ExecutorFacts.
Variable V : Type.
Variable cfg : Executor.config.
Variable w : Executor.world V.
Variable query : string.
Variable params : option (list V).

Let run_execute := Eff.run (Executor.execute_sql_query cfg w query params).

(** With an incomplete configuration nothing is called. *)
Lemma execute_incomplete_config :
  forallb Executor.entry_truthy
    [Executor.server cfg; Executor.database cfg; Executor.uid cfg;
     Executor.pwd cfg] = false ->
  run_execute =
    (Raises "Database connection error: Missing database connection parameters",
     []).
Proof.
  intros H. subst run_execute. unfold Executor.execute_sql_query.
  eff_unfold. rewrite H. reflexivity.
Qed.

(** Once connected, every run closes the connection once; a run that
    returns made no rollback and committed exactly when the statement
    is a mutation; a run that raises raises a wrapped error. *)
Lemma execute_connected_cases :
  Executor.connected cfg w ->
  Executor.calls Executor.is_close (snd run_execute) = 1 /\
  match fst run_execute with
  | Returns _ =>
      Executor.calls Executor.is_rollback (snd run_execute) = 0 /\
      Executor.calls Executor.is_commit (snd run_execute) =
        (if Executor.is_mutation query then 1 else 0)
  | Raises m =>
      exists msg, m = ("Database connection error: " ++ msg)%string
  end.
Proof.
  intros [Hcfg Hconn]. subst run_execute.
  unfold Executor.execute_sql_query, Executor.cursor_block,
    Executor.column_names.
  eff_unfold. rewrite Hcfg, Hconn. cbn [negb].
  eff_cases; eff_inj; (split; [reflexivity |]);
    first [ split; reflexivity | eexists; reflexivity ].
Qed.

(** A failing statement: one rollback, one close, a wrapped error. *)
Lemma execute_statement_fails (e : exn) :
  Executor.connected cfg w ->
  Executor.db_cursor w = None ->
  Executor.db_execute w query (Executor.execute_arg params) = Some e ->
  exists msg,
    fst run_execute = Raises ("Database connection error: " ++ msg)%string /\
    (Executor.db_cursor_exit w = None -> Executor.db_rollback w = None ->
     Executor.db_close w = None ->
     msg = ("Error executing query: " ++ e)%string) /\
    Executor.calls Executor.is_rollback (snd run_execute) = 1 /\
    Executor.calls Executor.is_close (snd run_execute) = 1.
Proof.
  intros [Hcfg Hconn] Hcur Hexec. subst run_execute.
  unfold Executor.execute_sql_query, Executor.cursor_block,
    Executor.column_names.
  unfold Executor.execute_arg in Hexec.
  eff_unfold. rewrite Hcfg, Hconn, Hcur. cbn [negb].
  destruct (Executor.params_truthy params); rewrite Hexec;
    eff_cases; cbn; eexists; (split; [reflexivity |]);
    (split; [| split; reflexivity]); intros; congruence.
Qed.

End ExecutorFacts.

(** ** Dictionaries *)

Section DictFacts.
Variable V : Type.
Implicit Types (d : PyDict.dict V) (l : list (string * V)) (k : string).

Lemma dict_in_keys_set d k v x :
  In x (PyDict.keys (PyDict.set d k v)) <-> In x (PyDict.keys d) \/ x = k.
Proof.
  induction d as [| [k' v'] d IH]; cbn.
  - intuition auto.
  - destruct (String.eqb_spec k' k) as [-> | Hne]; cbn.
    + intuition auto.
    + unfold PyDict.keys in IH. rewrite IH. intuition auto.
Qed.

Lemma dict_nodup_keys_set d k v :
  NoDup (PyDict.keys d) -> NoDup (PyDict.keys (PyDict.set d k v)).
Proof.
  induction d as [| [k' v'] d IH]; cbn; intros Hnd.
  - constructor; [intros [] | constructor].
  - inversion Hnd as [| ? ? Hnotin Hnd']; subst.
    destruct (String.eqb_spec k' k) as [-> | Hne]; cbn.
    + constructor; assumption.
    + constructor; [| apply IH; assumption].
      intros Hin. apply dict_in_keys_set in Hin. destruct Hin; auto.
Qed.

Lemma dict_get_set_same d k v : PyDict.get (PyDict.set d k v) k = Some v.
Proof.
  induction d as [| [k' v'] d IH]; cbn.
  - rewrite String.eqb_refl. reflexivity.
  - destruct (String.eqb_spec k' k) as [-> | Hne]; cbn.
    + rewrite String.eqb_refl. reflexivity.
    + destruct (String.eqb_spec k' k); [contradiction | exact IH].
Qed.

Lemma dict_get_set_other d k v k' :
  k <> k' -> PyDict.get (PyDict.set d k v) k' = PyDict.get d k'.
Proof.
  intros Hne. induction d as [| [k0 v0] d IH]; cbn.
  - destruct (String.eqb_spec k k'); [contradiction | reflexivity].
  - destruct (String.eqb_spec k0 k) as [-> | Hne0]; cbn.
    + destruct (String.eqb_spec k k'); [contradiction | reflexivity].
    + rewrite IH. reflexivity.
Qed.

Lemma dict_set_fresh d k v :
  ~ In k (PyDict.keys d) -> PyDict.set d k v = d ++ [(k, v)].
Proof.
  induction d as [| [k' v'] d IH]; cbn; intros Hnotin.
  - reflexivity.
  - destruct (String.eqb_spec k' k) as [-> | Hne].
    + exfalso. auto.
    + rewrite IH by auto. reflexivity.
Qed.

Let insert_all l d :=
  fold_left (fun d kv => PyDict.set d (fst kv) (snd kv)) l d.

Lemma dict_in_keys_insert_all l : forall d x,
  In x (PyDict.keys (insert_all l d)) <->
  In x (PyDict.keys d) \/ In x (map fst l).
Proof.
  induction l as [| [k v] l IH]; intros d x; cbn.
  - intuition auto.
  - subst insert_all. cbn in IH. rewrite IH, dict_in_keys_set.
    intuition auto.
Qed.

Lemma dict_nodup_keys_insert_all l : forall d,
  NoDup (PyDict.keys d) -> NoDup (PyDict.keys (insert_all l d)).
Proof.
  induction l as [| [k v] l IH]; intros d Hnd; cbn.
  - assumption.
  - apply IH, dict_nodup_keys_set, Hnd.
Qed.

Lemma dict_get_insert_all_notin l : forall d k,
  ~ In k (map fst l) -> PyDict.get (insert_all l d) k = PyDict.get d k.
Proof.
  induction l as [| [k0 v0] l IH]; intros d k Hnotin; cbn.
  - reflexivity.
  - subst insert_all. cbn in *. rewrite IH by auto.
    apply dict_get_set_other. auto.
Qed.

Lemma dict_insert_all_nodup l : forall d,
  NoDup (PyDict.keys d ++ map fst l) -> insert_all l d = d ++ l.
Proof.
  induction l as [| [k v] l IH]; intros d Hnd; cbn.
  - rewrite app_nil_r. reflexivity.
  - subst insert_all. cbn in *.
    assert (Hk : ~ In k (PyDict.keys d)).
    { intros Hin. apply NoDup_remove_2 in Hnd. apply Hnd.
      apply in_or_app. left. exact Hin. }
    rewrite dict_set_fresh by exact Hk.
    rewrite IH.
    + rewrite <- app_assoc. reflexivity.
    + unfold PyDict.keys in *. rewrite map_app. cbn.
      rewrite <- app_assoc. exact Hnd.
Qed.

(** In [dict(zip(names, row))] a name is bound to the value at its last
    position. *)
Lemma dict_get_zip_last : forall names row d j name v,
  nth_error names j = Some name ->
  nth_error row j = Some v ->
  (forall j', j < j' -> nth_error names j' <> Some name) ->
  PyDict.get (insert_all (combine names row) d) name = Some v.
Proof.
  induction names as [| n names IH]; intros row d j name v Hn Hr Hlast.
  - destruct j; discriminate.
  - destruct row as [| r row]; [destruct j; discriminate |].
    destruct j as [| j]; cbn in Hn, Hr.
    + injection Hn as ->. injection Hr as ->. cbn.
      rewrite dict_get_insert_all_notin.
      * apply dict_get_set_same.
      * intros Hin.
        assert (Hin' : In name names).
        { clear - Hin. revert row Hin.
          induction names as [| a names IHn]; intros [| r row] Hin;
            cbn in *; try contradiction.
          destruct Hin; [left; assumption | right; eauto]. }
        apply In_nth_error in Hin'. destruct Hin' as [i Hi].
        apply (Hlast (S i)); [lia | exact Hi].
    + cbn. apply IH with (j := j); try assumption.
      intros j' Hlt. apply (Hlast (S j')). lia.
Qed.

Lemma dict_keys_zip names (row : list V) x :
  length row = length names ->
  In x (PyDict.keys (PyDict.of_pairs (combine names row))) <-> In x names.
Proof.
  intros Hlen. unfold PyDict.of_pairs.
  fold (insert_all (combine names row) []).
  rewrite dict_in_keys_insert_all. cbn.
  assert (Hfst : map fst (combine names row) = names).
  { revert row Hlen. induction names as [| n names IH]; intros [| r row] Hlen;
      cbn in *; try discriminate; try reflexivity.
    f_equal. apply IH. lia. }
  rewrite Hfst. intuition auto.
Qed.

Lemma dict_zip_nodup names (row : list V) :
  NoDup names -> PyDict.of_pairs (combine names row) = combine names row.
Proof.
  intros Hnd. unfold PyDict.of_pairs.
  fold (insert_all (combine names row) []).
  rewrite dict_insert_all_nodup; [reflexivity |]. cbn.
  revert row. induction Hnd as [| n names Hnotin Hnd IH]; intros [| r row];
    cbn; try constructor.
  - intros Hin. apply Hnotin. clear - Hin. revert row Hin.
    induction names as [| a names IHn]; intros [| r' row] Hin;
      cbn in *; try contradiction.
    destruct Hin; [left; assumption | right; eauto].
  - apply IH.
Qed.

Lemma dict_nodup_keys_of_pairs (l : list (string * V)) : NoDup (PyDict.keys (PyDict.of_pairs l)).
Proof.
  unfold PyDict.of_pairs. fold (insert_all l []).
  apply dict_nodup_keys_insert_all. constructor.
Qed.

Lemma dict_get_of_pairs_zip names (row : list V) j name v :
  nth_error names j = Some name ->
  nth_error row j = Some v ->
  (forall j', j < j' -> nth_error names j' <> Some name) ->
  PyDict.get (PyDict.of_pairs (combine names row)) name = Some v.
Proof.
  intros. unfold PyDict.of_pairs.
  fold (insert_all (combine names row) []).
  eapply dict_get_zip_last; eassumption.
Qed.

End DictFacts.

(** ** Claims about the executor *)

(** A run that returns was connected, read a result descriptor and the
    rows, and returns one mapping per row. *)
Lemma execute_returns_inv (V : Type) (cfg : Executor.config)
    (w : Executor.world V) (query : string) (params : option (list V))
    (res : list (PyDict.dict V)) (t : list (event V)) :
  Eff.run (Executor.execute_sql_query cfg w query params) = (Returns res, t) ->
  Executor.connected cfg w /\
  exists cols rows,
    Executor.db_description w = Some cols /\
    Executor.db_fetchall w = inr rows /\
    res = map (Executor.row_dict (map (@Executor.column_name) cols)) rows.
Proof.
  unfold Executor.connected, Executor.execute_sql_query,
    Executor.cursor_block, Executor.column_names.
  eff_unfold. intros H.
  destruct (forallb _ _) eqn:Hcfg; cbn [negb] in H; [| discriminate].
  destruct (Executor.db_connect w _ _ _ _) eqn:Hconn; [discriminate |].
  split; [split; reflexivity |].
  revert H. eff_cases; intros H; eff_inj; eauto.
Qed.

(** If every driver call returns and the statement has a result
    descriptor, the run returns the rows as mappings. *)
Lemma execute_returns (V : Type) (cfg : Executor.config)
    (w : Executor.world V) (query : string) (params : option (list V))
    (cols : list Executor.column) (rows : list (list V)) :
  Executor.connected cfg w ->
  Executor.db_cursor w = None ->
  Executor.db_execute w query (Executor.execute_arg params) = None ->
  Executor.db_description w = Some cols ->
  Executor.db_fetchall w = inr rows ->
  Executor.db_commit w = None ->
  Executor.db_cursor_exit w = None ->
  Executor.db_close w = None ->
  fst (Eff.run (Executor.execute_sql_query cfg w query params)) =
    Returns (map (Executor.row_dict (map (@Executor.column_name) cols)) rows).
Proof.
  intros [Hcfg Hconn] Hcur Hexec Hdesc Hfetch Hcommit Hexit Hclose.
  unfold Executor.execute_sql_query, Executor.cursor_block,
    Executor.column_names, Executor.execute_arg in *.
  eff_unfold.
  rewrite Hcfg, Hconn, Hcur, Hdesc, Hfetch, Hcommit, Hexit, Hclose.
  cbn [negb].
  destruct (Executor.params_truthy params); rewrite Hexec;
    destruct (Executor.is_mutation query); reflexivity.
Qed.

(** A call on a mutation (the statement, lowercased and stripped, begins
    with insert, update or delete) that returns has exactly one commit and
    no rollback in its trace.  Returning takes more than a successful
    [execute]: see [statement_without_result_set_is_rolled_back]. *)
Theorem mutation_commits_once_without_rollback (V : Type)
    (cfg : Executor.config) (w : Executor.world V) (query : string)
    (params : option (list V)) (res : list (PyDict.dict V))
    (t : list (event V)) :
  Executor.is_mutation query = true ->
  Eff.run (Executor.execute_sql_query cfg w query params) = (Returns res, t) ->
  Executor.calls Executor.is_commit t = 1 /\
  Executor.calls Executor.is_rollback t = 0.
Proof.
  intros Hmut Hrun.
  destruct (execute_returns_inv _ _ _ _ Hrun) as [Hconn _].
  destruct (execute_connected_cases query params Hconn) as [_ Hcases].
  rewrite Hrun in Hcases. cbn [fst snd] in Hcases.
  rewrite Hmut in Hcases. destruct Hcases. split; assumption.
Qed.

Lemma mutation_commits_once_without_rollback_witness :
  Executor.is_mutation Samples.update_query = true /\
  Executor.calls Executor.is_commit
    (snd (Eff.run (Executor.execute_sql_query Samples.cfg Samples.db_ok
                     Samples.update_query None))) = 1 /\
  Executor.calls Executor.is_rollback
    (snd (Eff.run (Executor.execute_sql_query Samples.cfg Samples.db_ok
                     Samples.update_query None))) = 0.
Proof.
  split; [reflexivity |].
  eapply (@mutation_commits_once_without_rollback Z Samples.cfg Samples.db_ok
            Samples.update_query None).
  - reflexivity.
  - vm_compute. reflexivity.
Defined.

(** A statement that leaves no result descriptor ([cursor.description] is
    [None]) fails inside the guarded block although [execute] returned:
    there is one rollback and no commit. *)
Lemma statement_without_result_set_is_rolled_back (V : Type)
    (cfg : Executor.config) (w : Executor.world V) (query : string)
    (params : option (list V)) :
  Executor.connected cfg w ->
  Executor.db_cursor w = None ->
  Executor.db_execute w query (Executor.execute_arg params) = None ->
  Executor.db_description w = None ->
  let r := Eff.run (Executor.execute_sql_query cfg w query params) in
  (exists msg, fst r = Raises ("Database connection error: " ++ msg)%string) /\
  Executor.calls Executor.is_commit (snd r) = 0 /\
  Executor.calls Executor.is_rollback (snd r) = 1.
Proof.
  intros [Hcfg Hconn] Hcur Hexec Hdesc r. subst r.
  unfold Executor.execute_sql_query, Executor.cursor_block,
    Executor.column_names, Executor.execute_arg in *.
  eff_unfold. rewrite Hcfg, Hconn, Hcur, Hdesc. cbn [negb].
  destruct (Executor.params_truthy params); rewrite Hexec;
    eff_cases; cbn; (split; [eexists; reflexivity | split; reflexivity]).
Qed.

(** C2: when a connection is established and the statement's execution
    fails, rollback is invoked exactly once, the connection is closed
    exactly once and a wrapped error is raised, so the call does not
    return an empty result. *)
Theorem failing_statement_rolls_back_closes_and_raises (V : Type)
    (cfg : Executor.config) (w : Executor.world V) (query : string)
    (params : option (list V)) (e : exn) :
  Executor.connected cfg w ->
  Executor.db_cursor w = None ->
  Executor.db_execute w query (Executor.execute_arg params) = Some e ->
  let r := Eff.run (Executor.execute_sql_query cfg w query params) in
  Executor.calls Executor.is_rollback (snd r) = 1 /\
  Executor.calls Executor.is_close (snd r) = 1 /\
  (exists msg,
     fst r = Raises ("Database connection error: " ++ msg)%string /\
     (Executor.db_cursor_exit w = None -> Executor.db_rollback w = None ->
      Executor.db_close w = None ->
      msg = ("Error executing query: " ++ e)%string)) /\
  fst r <> Returns [].
Proof.
  intros Hconn Hcur Hexec r.
  destruct (execute_statement_fails query params Hconn Hcur Hexec)
    as (msg & Hres & Hmsg & Hrb & Hcl).
  fold r in Hres, Hrb, Hcl.
  repeat split; try assumption.
  - exists msg. split; assumption.
  - rewrite Hres. discriminate.
Qed.

Lemma failing_statement_rolls_back_closes_and_raises_witness :
  let r := Eff.run (Executor.execute_sql_query Samples.cfg
                      Samples.db_bad_statement Samples.select_query None) in
  Executor.calls Executor.is_rollback (snd r) = 1 /\
  Executor.calls Executor.is_close (snd r) = 1 /\
  (exists msg,
     fst r = Raises ("Database connection error: " ++ msg)%string /\
     (Executor.db_cursor_exit Samples.db_bad_statement = None ->
      Executor.db_rollback Samples.db_bad_statement = None ->
      Executor.db_close Samples.db_bad_statement = None ->
      msg = ("Error executing query: " ++ "Invalid object name")%string)) /\
  fst r <> Returns [].
Proof.
  apply (@failing_statement_rolls_back_closes_and_raises Z Samples.cfg
           Samples.db_bad_statement Samples.select_query None
           "Invalid object name").
  - split; reflexivity.
  - reflexivity.
  - reflexivity.
Defined.

(** C5: when the connection is established, the connection is closed
    exactly once whatever the driver calls do afterwards: on normal
    return, on an execution error and on a failing rollback alike. *)
Theorem connection_closed_on_every_exit (V : Type) (cfg : Executor.config)
    (w : Executor.world V) (query : string) (params : option (list V)) :
  Executor.connected cfg w ->
  Executor.calls Executor.is_close
    (snd (Eff.run (Executor.execute_sql_query cfg w query params))) = 1.
Proof.
  intros Hconn.
  exact (proj1 (execute_connected_cases query params Hconn)).
Qed.

Lemma connection_closed_on_every_exit_witness :
  Executor.connected Samples.cfg Samples.db_rollback_fails /\
  Executor.calls Executor.is_close
    (snd (Eff.run (Executor.execute_sql_query Samples.cfg
                     Samples.db_rollback_fails Samples.select_query None))) = 1.
Proof.
  assert (H : Executor.connected Samples.cfg Samples.db_rollback_fails)
    by (split; reflexivity).
  split; [exact H |].
  exact (@connection_closed_on_every_exit Z Samples.cfg
           Samples.db_rollback_fails Samples.select_query None H).
Defined.

(** C6: when [execute_sql_query] returns, the result has one mapping per
    fetched row, in order; the mapping of a row is [dict(zip(names, row))]
    for the names of the result descriptor: for a row as wide as the
    descriptor its keys are exactly the column names, each name is bound
    to the row value at its (last) position, and with distinct names the
    items are the pairs name/value in descriptor order. *)
Theorem result_rows_are_column_keyed_mappings (V : Type)
    (cfg : Executor.config) (w : Executor.world V) (query : string)
    (params : option (list V)) (res : list (PyDict.dict V))
    (t : list (event V)) :
  Eff.run (Executor.execute_sql_query cfg w query params) = (Returns res, t) ->
  exists cols rows,
    Executor.db_description w = Some cols /\
    Executor.db_fetchall w = inr rows /\
    let names := map (@Executor.column_name) cols in
    length res = length rows /\
    forall i row,
      nth_error rows i = Some row ->
      exists d,
        nth_error res i = Some d /\
        d = PyDict.of_pairs (combine names row) /\
        NoDup (PyDict.keys d) /\
        (length row = length cols ->
         forall k, In k (PyDict.keys d) <-> In k names) /\
        (forall j name v,
           nth_error names j = Some name ->
           nth_error row j = Some v ->
           (forall j', j < j' -> nth_error names j' <> Some name) ->
           PyDict.get d name = Some v) /\
        (NoDup names -> d = combine names row).
Proof.
  intros Hrun.
  destruct (execute_returns_inv _ _ _ _ Hrun)
    as (_ & cols & rows & Hdesc & Hfetch & ->).
  exists cols, rows. split; [exact Hdesc |]. split; [exact Hfetch |].
  cbn zeta. split; [apply length_map |].
  intros i row Hrow.
  exists (Executor.row_dict (map (@Executor.column_name) cols) row).
  split; [rewrite nth_error_map, Hrow; reflexivity |].
  unfold Executor.row_dict.
  split; [reflexivity |].
  split; [apply dict_nodup_keys_of_pairs |].
  split.
  { intros Hlen k. apply dict_keys_zip. rewrite length_map. exact Hlen. }
  split.
  { intros j name v Hn Hv Hlast.
    eapply dict_get_of_pairs_zip; eassumption. }
  apply dict_zip_nodup.
Qed.

Lemma result_rows_are_column_keyed_mappings_witness :
  exists cols rows,
    Executor.db_description Samples.db_ok = Some cols /\
    Executor.db_fetchall Samples.db_ok = inr rows /\
    let names := map (@Executor.column_name) cols in
    length
      [[("category", 7%Z); ("stockqty", 10%Z)];
       [("category", 7%Z); ("stockqty", 25%Z)]] = length rows /\
    forall i row,
      nth_error rows i = Some row ->
      exists d,
        nth_error
          [[("category", 7%Z); ("stockqty", 10%Z)];
           [("category", 7%Z); ("stockqty", 25%Z)]] i = Some d /\
        d = PyDict.of_pairs (combine names row) /\
        NoDup (PyDict.keys d) /\
        (length row = length cols ->
         forall k, In k (PyDict.keys d) <-> In k names) /\
        (forall j name v,
           nth_error names j = Some name ->
           nth_error row j = Some v ->
           (forall j', j < j' -> nth_error names j' <> Some name) ->
           PyDict.get d name = Some v) /\
        (NoDup names -> d = combine names row).
Proof.
  eapply (@result_rows_are_column_keyed_mappings Z Samples.cfg Samples.db_ok
            Samples.select_query None).
  vm_compute. reflexivity.
Defined.

(** C9: when any of the server, database, user name or password entries
    is missing (unset or empty), [execute_sql_query] raises the wrapped
    error and calls neither [connect] nor [execute]: nothing is called at
    all. *)
Theorem missing_parameter_raises_without_connecting (V : Type)
    (cfg : Executor.config) (w : Executor.world V) (query : string)
    (params : option (list V)) :
  Executor.entry_truthy (Executor.server cfg) = false \/
  Executor.entry_truthy (Executor.database cfg) = false \/
  Executor.entry_truthy (Executor.uid cfg) = false \/
  Executor.entry_truthy (Executor.pwd cfg) = false ->
  let r := Eff.run (Executor.execute_sql_query cfg w query params) in
  fst r =
    Raises "Database connection error: Missing database connection parameters" /\
  snd r = [] /\
  Executor.calls Executor.is_connect (snd r) = 0 /\
  Executor.calls Executor.is_execute (snd r) = 0.
Proof.
  intros Hmiss r.
  assert (Hall : forallb Executor.entry_truthy
                   [Executor.server cfg; Executor.database cfg;
                    Executor.uid cfg; Executor.pwd cfg] = false).
  { cbn. destruct Hmiss as [H | [H | [H | H]]]; rewrite H;
      repeat rewrite andb_false_r; reflexivity. }
  pose proof (@execute_incomplete_config V cfg w query params Hall) as Hrun.
  subst r. rewrite Hrun. repeat split; reflexivity.
Qed.

Lemma missing_parameter_raises_without_connecting_witness :
  let r := Eff.run (Executor.execute_sql_query Samples.cfg_no_password
                      Samples.db_ok Samples.select_query None) in
  fst r =
    Raises "Database connection error: Missing database connection parameters" /\
  snd r = [] /\
  Executor.calls Executor.is_connect (snd r) = 0 /\
  Executor.calls Executor.is_execute (snd r) = 0.
Proof.
  apply (@missing_parameter_raises_without_connecting Z
           Samples.cfg_no_password Samples.db_ok Samples.select_query None).
  right; right; right. reflexivity.
Defined.

(** ** Claims about the metadata fetcher *)

(** The loop only adds target tables. *)
Lemma scan_keys_are_targets : forall tables md md',
  Catalog.scan tables md = inr md' ->
  forall name, In name (PyDict.keys md') ->
    In name (PyDict.keys md) \/ In name Catalog.target_tables.
Proof.
  induction tables as [| table tables IH]; intros md md' Hscan name Hin.
  - cbn in Hscan. injection Hscan as <-. left. exact Hin.
  - cbn [Catalog.scan] in Hscan. unfold Res.bind in Hscan.
    destruct (Res.getitem "Name" (Catalog.tbl_Name table)) as [e | n];
      [discriminate |].
    destruct (existsb (String.eqb n) Catalog.target_tables) eqn:Htarget.
    + destruct (Catalog.table_entry table) as [e | entry]; [discriminate |].
      destruct (IH _ _ Hscan name Hin) as [Hold | Hnew]; [| right; exact Hnew].
      apply dict_in_keys_set in Hold. destruct Hold as [Hold | ->].
      * left. exact Hold.
      * right. apply existsb_exists in Htarget.
        destruct Htarget as (x & Hx & Heq).
        apply String.eqb_eq in Heq. subst x. exact Hx.
    + eauto.
Qed.

(** The outcomes of [get_table_metadata] once its client exists. *)
Lemma get_table_metadata_cases (V : Type) (w : Catalog.world) :
  Catalog.glue_client w = None ->
  let r := Eff.run (Catalog.get_table_metadata V w) in
  (exists md,
     fst r = Returns (Some md) /\
     (exists response tables,
        Catalog.glue_get_tables w "sqlserver_metadata" = inr response /\
        Catalog.resp_TableList response = Some tables /\
        Catalog.scan tables [] = inr md) /\
     Executor.calls Page.is_error (snd r) = 0 /\
     Executor.calls Page.is_warning (snd r) =
       (if Catalog.dict_truthy md then 0 else 1))
  \/
  (fst r = Returns None /\
   Executor.calls Page.is_error (snd r) = 1 /\
   Executor.calls Page.is_warning (snd r) = 0).
Proof.
  intros Hclient r. subst r. unfold Catalog.get_table_metadata.
  eff_unfold. rewrite Hclient.
  destruct (Catalog.glue_get_tables w "sqlserver_metadata")
    as [e | response] eqn:Hget; cbn beta iota;
    [right; repeat split; reflexivity |].
  destruct (Catalog.resp_TableList response) as [tables |] eqn:Htables;
    cbn beta iota; [| right; repeat split; reflexivity].
  destruct (Catalog.scan tables []) as [e | md] eqn:Hscan; cbn beta iota;
    [right; repeat split; reflexivity |].
  left. exists md.
  destruct md as [| entry md]; cbn;
    (split; [reflexivity |]);
    (split; [exists response, tables; auto |]); split; reflexivity.
Qed.

(** C7: for every outcome of the catalog call, the map returned by
    [get_table_metadata] has no key outside the target table list, and
    the warning is emitted (once) exactly when the returned map is empty;
    in particular it is not emitted when no map is returned. *)
Theorem metadata_excludes_other_tables_and_warns_when_empty (V : Type)
    (w : Catalog.world) :
  let r := Eff.run (Catalog.get_table_metadata V w) in
  match fst r with
  | Returns (Some md) =>
      (forall name, ~ In name Catalog.target_tables ->
                    ~ In name (PyDict.keys md) /\ PyDict.get md name = None) /\
      (Executor.calls Page.is_warning (snd r) <= 1) /\
      (Executor.calls Page.is_warning (snd r) = 1 <-> md = []) /\
      (In (EvWarning "No target tables found in the Glue Catalog") (snd r)
       <-> md = [])
  | _ => Executor.calls Page.is_warning (snd r) = 0
  end.
Proof.
  intros r.
  destruct (Catalog.glue_client w) as [e |] eqn:Hclient.
  { subst r. unfold Catalog.get_table_metadata. eff_unfold.
    rewrite Hclient. reflexivity. }
  destruct (get_table_metadata_cases V w Hclient)
    as [(md & Hres & (response & tables & _ & _ & Hscan) & _ & Hwarn)
       | (Hres & _ & Hwarn)];
    fold r in Hres, Hwarn; rewrite Hres; [| exact Hwarn].
  assert (Hkeys : forall name, ~ In name Catalog.target_tables ->
                               ~ In name (PyDict.keys md)).
  { intros name Hnot Hin.
    destruct (scan_keys_are_targets _ _ Hscan name Hin) as [[] | Ht].
    exact (Hnot Ht). }
  split.
  { intros name Hnot. split; [exact (Hkeys name Hnot) |].
    specialize (Hkeys name Hnot). clear - Hkeys.
    induction md as [| [k v] md IH]; cbn in *; [reflexivity |].
    destruct (String.eqb_spec k name) as [-> | Hne].
    - exfalso. auto.
    - apply IH. auto. }
  rewrite Hwarn.
  assert (Hin : In (EvWarning "No target tables found in the Glue Catalog")
                   (snd r) <-> md = []).
  { subst r. unfold Catalog.get_table_metadata in *. revert Hres.
    eff_unfold. rewrite Hclient.
    destruct (Catalog.glue_get_tables w "sqlserver_metadata") as [e | rsp];
      cbn beta iota; [discriminate |].
    destruct (Catalog.resp_TableList rsp) as [tbls |]; cbn beta iota;
      [| discriminate].
    destruct (Catalog.scan tbls []) as [e | md0]; cbn beta iota;
      [discriminate |].
    destruct md0 as [| entry md0]; cbn; intros Hres;
      injection Hres as <-.
    - split; [reflexivity | auto].
    - split; [| discriminate].
      intros [H | [H | []]]; discriminate. }
  destruct md as [| entry md]; cbn.
  - repeat split; auto; apply Hin; reflexivity.
  - repeat split; try lia; try discriminate; apply Hin.
Qed.

(** ** Strings *)

Section StringFacts.
Local Open Scope string_scope.

Lemma str_app_nil_r (s : string) : s ++ EmptyString = s.
Proof. induction s as [| c s IH]; cbn; [| rewrite IH]; reflexivity. Qed.

Lemma str_app_assoc (a b c : string) : (a ++ b) ++ c = a ++ (b ++ c).
Proof. induction a as [| x a IH]; cbn; [| rewrite IH]; reflexivity. Qed.

Lemma prefix_app (s b : string) : prefix s (s ++ b) = true.
Proof.
  induction s as [| c s IH]; cbn.
  - destruct b; reflexivity.
  - destruct (ascii_dec c c); [exact IH | contradiction].
Qed.

Lemma prefix_split : forall s t,
  prefix s t = true -> exists b, t = s ++ b.
Proof.
  induction s as [| c s IH]; intros t H.
  - exists t. reflexivity.
  - destruct t as [| d t]; cbn in H; [discriminate |].
    destruct (ascii_dec c d) as [-> | ]; [| discriminate].
    destruct (IH t H) as [b ->]. exists b. reflexivity.
Qed.

Lemma contains_prefix (needle s : string) :
  prefix needle s = true -> PyStr.contains needle s = true.
Proof. intros H. destruct s; cbn [PyStr.contains]; rewrite H; reflexivity. Qed.

(** [needle in s] holds exactly when [s] splits around [needle]. *)
Lemma contains_intro (needle : string) : forall a b,
  PyStr.contains needle (a ++ needle ++ b) = true.
Proof.
  induction a as [| c a IH]; intros b.
  - cbn [append]. apply contains_prefix, prefix_app.
  - cbn. rewrite IH. apply orb_true_r.
Qed.

Lemma contains_elim (needle : string) : forall s,
  PyStr.contains needle s = true -> exists a b, s = a ++ needle ++ b.
Proof.
  induction s as [| c s IH]; cbn [PyStr.contains]; intros H.
  - rewrite orb_false_r in H. destruct (prefix_split _ _ H) as [b ->].
    exists EmptyString, b. reflexivity.
  - apply orb_true_iff in H. destruct H as [H | H].
    + destruct (prefix_split _ _ H) as [b ->].
      exists EmptyString, b. reflexivity.
    + destruct (IH H) as (a & b & ->). exists (String c a), b. reflexivity.
Qed.

Lemma contains_refl (s : string) : PyStr.contains s s = true.
Proof.
  pose proof (contains_intro s EmptyString EmptyString) as H.
  cbn [append] in H. rewrite str_app_nil_r in H. exact H.
Qed.

Lemma contains_app_r (needle s u : string) :
  PyStr.contains needle s = true -> PyStr.contains needle (u ++ s) = true.
Proof.
  intros H. destruct (contains_elim _ _ H) as (a & b & ->).
  rewrite <- str_app_assoc. apply contains_intro.
Qed.

Lemma contains_app_l (needle s u : string) :
  PyStr.contains needle s = true -> PyStr.contains needle (s ++ u) = true.
Proof.
  intros H. destruct (contains_elim _ _ H) as (a & b & ->).
  rewrite !str_app_assoc. apply contains_intro.
Qed.

Lemma contains_trans (s t u : string) :
  PyStr.contains s t = true -> PyStr.contains t u = true ->
  PyStr.contains s u = true.
Proof.
  intros Hst Htu. destruct (contains_elim _ _ Htu) as (a & b & ->).
  apply contains_app_r, contains_app_l, Hst.
Qed.

Lemma contains_concat (sep x : string) : forall l,
  In x l -> PyStr.contains x (String.concat sep l) = true.
Proof.
  induction l as [| y l IH]; intros Hin; [contradiction |].
  destruct l as [| z l].
  - destruct Hin as [-> | []]. apply contains_refl.
  - change (String.concat sep (y :: z :: l))
      with (y ++ sep ++ String.concat sep (z :: l)).
    destruct Hin as [-> | Hin].
    + apply contains_app_l, contains_refl.
    + apply contains_app_r, contains_app_r, IH, Hin.
Qed.

(** [lstrip] removes a run of whitespace from the front. *)
Lemma lstrip_split (s : string) :
  exists a, s = a ++ PyStr.lstrip s /\
            forallb PyStr.isspace (list_ascii_of_string a) = true.
Proof.
  induction s as [| c s (a & IH & Ha)]; cbn.
  - exists EmptyString. split; reflexivity.
  - destruct (PyStr.isspace c) eqn:Hc.
    + exists (String c a). cbn. rewrite Hc, Ha. split; [| reflexivity].
      f_equal. exact IH.
    + exists EmptyString. split; reflexivity.
Qed.

Lemma lstrip_first (s : string) (c : ascii) :
  PyStr.first_char (PyStr.lstrip s) = Some c -> PyStr.isspace c = false.
Proof.
  induction s as [| d s IH]; cbn; [discriminate |].
  destruct (PyStr.isspace d) eqn:Hd; [exact IH |].
  cbn. intros H. injection H as <-. exact Hd.
Qed.

(** [rstrip] removes a run of whitespace from the back. *)
Lemma rstrip_split (s : string) :
  exists b, s = PyStr.rstrip s ++ b /\
            forallb PyStr.isspace (list_ascii_of_string b) = true.
Proof.
  induction s as [| c s (b & IH & Hb)]; cbn.
  - exists EmptyString. split; reflexivity.
  - destruct (PyStr.rstrip s) as [| d r] eqn:Hr.
    + destruct (PyStr.isspace c) eqn:Hc.
      * exists (String c s). cbn in IH. subst b. split; [reflexivity |].
        cbn. rewrite Hc. exact Hb.
      * exists b. cbn in *. split; [f_equal; exact IH | exact Hb].
    + exists b. split; [| exact Hb]. cbn. f_equal. exact IH.
Qed.

Lemma rstrip_last (s : string) (c : ascii) :
  PyStr.last_char (PyStr.rstrip s) = Some c -> PyStr.isspace c = false.
Proof.
  induction s as [| d s IH]; cbn; [discriminate |].
  destruct (PyStr.rstrip s) as [| e r] eqn:Hr.
  - destruct (PyStr.isspace d) eqn:Hd; cbn; [discriminate |].
    intros H. injection H as <-. exact Hd.
  - intros H. apply IH. exact H.
Qed.

Lemma rstrip_first (s : string) (c : ascii) :
  PyStr.first_char (PyStr.rstrip s) = Some c -> PyStr.first_char s = Some c.
Proof.
  destruct s as [| d s]; cbn; [discriminate |].
  destruct (PyStr.rstrip s); [destruct (PyStr.isspace d) |];
    cbn; intros H; try discriminate; exact H.
Qed.

(** [strip] keeps the text between the leading and the trailing
    whitespace, and its result neither begins nor ends with
    whitespace. *)
Lemma strip_spec (s : string) :
  (exists a b,
     s = a ++ PyStr.strip s ++ b /\
     forallb PyStr.isspace (list_ascii_of_string a) = true /\
     forallb PyStr.isspace (list_ascii_of_string b) = true) /\
  (forall c, PyStr.first_char (PyStr.strip s) = Some c ->
             PyStr.isspace c = false) /\
  (forall c, PyStr.last_char (PyStr.strip s) = Some c ->
             PyStr.isspace c = false).
Proof.
  unfold PyStr.strip. split; [| split].
  - destruct (lstrip_split s) as (a & Ha & Hsa).
    destruct (rstrip_split (PyStr.lstrip s)) as (b & Hb & Hsb).
    exists a, b. split; [| split; assumption].
    rewrite <- Hb. exact Ha.
  - intros c H. apply rstrip_first in H. eapply lstrip_first, H.
  - intros c. apply rstrip_last.
Qed.

End StringFacts.

(** ** Claims about the generator *)

(** The outcomes of [generate_sql_query]. *)
Lemma generate_sql_query_cases (V : Type) (w : Generator.world)
    (q : string) (md : option Catalog.metadata) :
  let r := Eff.run (Generator.generate_sql_query V w q md) in
  match Generator.br_client w with
  | Some e => r = (Raises e, [EvBedrockClient])
  | None =>
      let req := Generator.request (Generator.prompt q md) in
      match Generator.br_invoke w req with
      | inr (inr body) =>
          match Generator.completion_text body with
          | inr text =>
              r = (Returns (Some text), [EvBedrockClient; EvInvokeModel req])
          | inl e =>
              r = (Returns None,
                   [EvBedrockClient; EvInvokeModel req;
                    EvError ("Error generating SQL: " ++ e)%string;
                    EvError ("Traceback: " ++ Generator.br_traceback w e)%string])
          end
      | inr (inl e) | inl e =>
          r = (Returns None,
               [EvBedrockClient; EvInvokeModel req;
                EvError ("Error generating SQL: " ++ e)%string;
                EvError ("Traceback: " ++ Generator.br_traceback w e)%string])
      end
  end.
Proof.
  unfold Generator.generate_sql_query. eff_unfold.
  destruct (Generator.br_client w); [reflexivity |].
  cbn zeta.
  destruct (Generator.br_invoke w _) as [e | [e | body]]; try reflexivity.
  cbn beta iota.
  destruct (Generator.completion_text body); reflexivity.
Qed.

(** C4 (as amended): for a successful model response, whose parsed body
    has a string at [['content'][0]['text']], [generate_sql_query]
    returns that string without its leading and trailing whitespace, and
    otherwise unchanged: the text is the result between two runs of
    whitespace, and the result neither begins nor ends with whitespace.
    Code fences in the completion are part of the result. *)
Theorem completion_is_returned_whitespace_trimmed (V : Type)
    (w : Generator.world) (q : string) (md : option Catalog.metadata)
    (body content first : Json.value) (text : string) :
  Generator.br_client w = None ->
  Generator.br_invoke w (Generator.request (Generator.prompt q md)) =
    inr (inr body) ->
  Json.getitem body "content" = inr content ->
  Json.getitem0 content = inr first ->
  Json.getitem first "text" = inr (Json.Str text) ->
  let r := Eff.run (Generator.generate_sql_query V w q md) in
  fst r = Returns (Some (PyStr.strip text)) /\
  Executor.calls Page.is_error (snd r) = 0 /\
  (exists a b,
     text = (a ++ PyStr.strip text ++ b)%string /\
     forallb PyStr.isspace (list_ascii_of_string a) = true /\
     forallb PyStr.isspace (list_ascii_of_string b) = true) /\
  (forall c, PyStr.first_char (PyStr.strip text) = Some c ->
             PyStr.isspace c = false) /\
  (forall c, PyStr.last_char (PyStr.strip text) = Some c ->
             PyStr.isspace c = false).
Proof.
  intros Hclient Hinvoke Hcontent Hfirst Htext r.
  pose proof (generate_sql_query_cases V w q md) as Hcases.
  cbn zeta in Hcases. rewrite Hclient, Hinvoke in Hcases.
  unfold Generator.completion_text, Res.bind in Hcases.
  rewrite Hcontent, Hfirst, Htext in Hcases. cbn [Json.strip] in Hcases.
  subst r. rewrite Hcases.
  split; [reflexivity |]. split; [reflexivity |].
  apply strip_spec.
Qed.

Lemma completion_is_returned_whitespace_trimmed_witness :
  let text := "  SELECT * FROM xtstock2025 WHERE category = 'Apparel';  " in
  let r := Eff.run (Generator.generate_sql_query Z
                      (Samples.bedrock_answers text) "q"
                      (Some Samples.stock_metadata)) in
  fst r = Returns (Some (PyStr.strip text)) /\
  Executor.calls Page.is_error (snd r) = 0 /\
  (exists a b,
     text = (a ++ PyStr.strip text ++ b)%string /\
     forallb PyStr.isspace (list_ascii_of_string a) = true /\
     forallb PyStr.isspace (list_ascii_of_string b) = true) /\
  (forall c, PyStr.first_char (PyStr.strip text) = Some c ->
             PyStr.isspace c = false) /\
  (forall c, PyStr.last_char (PyStr.strip text) = Some c ->
             PyStr.isspace c = false).
Proof.
  intros text.
  apply (@completion_is_returned_whitespace_trimmed Z
           (Samples.bedrock_answers text) "q" (Some Samples.stock_metadata)
           (Samples.response_body text)
           (Json.Arr [ Json.Obj [ ("type", Json.Str "text");
                                  ("text", Json.Str text) ] ])
           (Json.Obj [ ("type", Json.Str "text"); ("text", Json.Str text) ])
           text);
    reflexivity.
Defined.

(** C4, the claim as stated fails: a completion wrapped in a code fence
    is returned with the fence at both ends. *)
Lemma fenced_completion_is_returned_fenced :
  let sql :=
    (Samples.fence ++ "sql" ++ nl ++ "SELECT * FROM xtstock2025;" ++ nl
     ++ Samples.fence)%string in
  fst (Eff.run (Generator.generate_sql_query Z
                  (Samples.bedrock_answers Samples.fenced_completion) "q"
                  (Some Samples.stock_metadata))) = Returns (Some sql) /\
  PyStr.startswith sql "```" = true /\
  PyStr.contains "```" sql = true.
Proof.
  cbn zeta. split; [vm_compute; reflexivity |]. split; reflexivity.
Qed.

(** ** The prompt *)

Section PromptFacts.
Local Open Scope string_scope.

Lemma escape_plain_char (c : ascii) :
  Json.plain_char c = true -> Json.escape_char c = String c EmptyString.
Proof.
  destruct c as [[] [] [] [] [] [] [] []]; vm_compute;
    intros H; try discriminate H; reflexivity.
Qed.

(** A plain string is its own JSON escape. *)
Lemma escape_plain (s : string) : Json.plain s = true -> Json.escape s = s.
Proof.
  unfold Json.plain. induction s as [| c s IH]; cbn; [reflexivity |].
  intros H. apply andb_true_iff in H. destruct H as [Hc Hs].
  rewrite (escape_plain_char _ Hc), (IH Hs). reflexivity.
Qed.

Lemma contains_escape_quote (s : string) :
  PyStr.contains (Json.escape s) (Json.quote s) = true.
Proof. unfold Json.quote. apply contains_intro. Qed.

(** An element of a list appears in the serialised list. *)
Lemma contains_dumps_arr (level : nat) (items : list Json.value)
    (x : Json.value) :
  In x items ->
  PyStr.contains (Json.dumps_at (S level) x)
    (Json.dumps_at level (Json.Arr items)) = true.
Proof.
  intros Hin. destruct items as [| y items]; [contradiction |].
  cbn [Json.dumps_at].
  apply contains_app_r, contains_app_r, contains_app_l.
  apply contains_concat, in_map, Hin.
Qed.

(** A key and its value appear in the serialised dictionary. *)
Lemma contains_dumps_obj (level : nat) (members : list (string * Json.value))
    (k : string) (x : Json.value) :
  In (k, x) members ->
  PyStr.contains (Json.quote k) (Json.dumps_at level (Json.Obj members))
    = true /\
  PyStr.contains (Json.dumps_at (S level) x)
    (Json.dumps_at level (Json.Obj members)) = true.
Proof.
  intros Hin. destruct members as [| m members]; [contradiction |].
  cbn [Json.dumps_at].
  assert (Hitem :
    PyStr.contains (Json.quote k ++ ": " ++ Json.dumps_at (S level) x)
      (String.concat ("," ++ Json.newline_indent (S level))
         (map (fun kv : string * Json.value =>
                 let (k0, x0) := kv in
                 Json.quote k0 ++ ": " ++ Json.dumps_at (S level) x0)
              (m :: members))) = true).
  { apply contains_concat.
    change (Json.quote k ++ ": " ++ Json.dumps_at (S level) x)
      with ((fun kv : string * Json.value =>
               let (k0, x0) := kv in
               Json.quote k0 ++ ": " ++ Json.dumps_at (S level) x0) (k, x)).
    apply in_map, Hin. }
  split; apply contains_app_r, contains_app_r, contains_app_l;
    (eapply contains_trans; [| exact Hitem]).
  - apply contains_app_l, contains_refl.
  - apply contains_app_r, contains_app_r, contains_refl.
Qed.

(** Table names and column names appear JSON-escaped in the schema. *)
Lemma schema_embeds_names (d : Catalog.metadata) (name : string)
    (info : Catalog.table_info) :
  In (name, info) d ->
  let schema := Json.dumps (Catalog.metadata_json (Some d)) in
  PyStr.contains (Json.escape name) schema = true /\
  forall col,
    In col (Catalog.columns info) \/
    In col (PyDict.keys (Catalog.column_types info)) ->
    PyStr.contains (Json.escape col) schema = true.
Proof.
  intros Hin schema. subst schema. unfold Json.dumps. cbn [Catalog.metadata_json].
  assert (Hmem : In (name, Catalog.info_json info)
                   (map (fun kv => (fst kv, Catalog.info_json (snd kv))) d)).
  { change (name, Catalog.info_json info)
      with ((fun kv : string * Catalog.table_info =>
               (fst kv, Catalog.info_json (snd kv))) (name, info)).
    apply in_map, Hin. }
  destruct (contains_dumps_obj 0 _ _ _ Hmem) as [Hkey Hval].
  split.
  { eapply contains_trans; [apply contains_escape_quote | exact Hkey]. }
  intros col Hcol.
  eapply contains_trans; [| exact Hval].
  unfold Catalog.info_json.
  destruct Hcol as [Hcol | Hcol].
  - assert (Hc : In ("columns",
                     Json.Arr (map Json.Str (Catalog.columns info)))
                    [ ("columns", Json.Arr (map Json.Str (Catalog.columns info)));
                      ("description", Json.Str (Catalog.description info));
                      ("column_types",
                       Json.Obj (map (fun kv => (fst kv, Json.Str (snd kv)))
                                   (Catalog.column_types info))) ])
      by (left; reflexivity).
    destruct (contains_dumps_obj 1 _ _ _ Hc) as [_ Harr].
    eapply contains_trans; [| exact Harr].
    eapply contains_trans;
      [| apply (contains_dumps_arr 2 _ (Json.Str col)), in_map, Hcol].
    cbn [Json.dumps_at]. apply contains_escape_quote.
  - assert (Hc : In ("column_types",
                     Json.Obj (map (fun kv => (fst kv, Json.Str (snd kv)))
                                 (Catalog.column_types info)))
                    [ ("columns", Json.Arr (map Json.Str (Catalog.columns info)));
                      ("description", Json.Str (Catalog.description info));
                      ("column_types",
                       Json.Obj (map (fun kv => (fst kv, Json.Str (snd kv)))
                                   (Catalog.column_types info))) ])
      by (right; right; left; reflexivity).
    destruct (contains_dumps_obj 1 _ _ _ Hc) as [_ Hobj].
    eapply contains_trans; [| exact Hobj].
    unfold PyDict.keys in Hcol. apply in_map_iff in Hcol.
    destruct Hcol as ([k ty] & Hk & Hin'). cbn in Hk. subst k.
    assert (Hm : In (col, Json.Str ty)
                   (map (fun kv : string * string => (fst kv, Json.Str (snd kv)))
                      (Catalog.column_types info))).
    { change (col, Json.Str ty)
        with ((fun kv : string * string => (fst kv, Json.Str (snd kv)))
                (col, ty)).
      apply in_map, Hin'. }
    destruct (contains_dumps_obj 2 _ _ _ Hm) as [Hkey' _].
    eapply contains_trans; [apply contains_escape_quote | exact Hkey'].
Qed.

(** What the schema holds, the prompt holds. *)
Lemma prompt_contains_schema (q : string) (md : option Catalog.metadata)
    (s : string) :
  PyStr.contains s (Json.dumps (Catalog.metadata_json md)) = true ->
  PyStr.contains s (Generator.prompt q md) = true.
Proof.
  intros H. unfold Generator.prompt.
  apply contains_app_r, contains_app_l, H.
Qed.

Lemma prompt_names_target_table (q : string) (md : option Catalog.metadata) :
  PyStr.contains "xtstock2025" (Generator.prompt q md) = true.
Proof.
  unfold Generator.prompt.
  do 4 apply contains_app_r. vm_compute. reflexivity.
Qed.

End PromptFacts.

(** C8 (as amended): for every metadata mapping and every question, the
    prompt contains the target table name [xtstock2025]; it contains
    every table name and every column name of the metadata in JSON-escaped
    form, hence the exact name whenever the name is made of printable
    ASCII characters other than the double quote and the backslash. *)
Theorem prompt_embeds_table_and_column_names (q : string)
    (d : Catalog.metadata) :
  let p := Generator.prompt q (Some d) in
  PyStr.contains "xtstock2025" p = true /\
  forall name info,
    In (name, info) d ->
    PyStr.contains (Json.escape name) p = true /\
    (Json.plain name = true -> PyStr.contains name p = true) /\
    forall col,
      In col (Catalog.columns info) \/
      In col (PyDict.keys (Catalog.column_types info)) ->
      PyStr.contains (Json.escape col) p = true /\
      (Json.plain col = true -> PyStr.contains col p = true).
Proof.
  intros p. split; [apply prompt_names_target_table |].
  intros name info Hin.
  destruct (schema_embeds_names d name info Hin) as [Hname Hcols].
  assert (Hn : PyStr.contains (Json.escape name) p = true)
    by (apply prompt_contains_schema, Hname).
  split; [exact Hn |]. split.
  { intros Hplain. rewrite <- (escape_plain _ Hplain). exact Hn. }
  intros col Hcol.
  assert (Hc : PyStr.contains (Json.escape col) p = true)
    by (apply prompt_contains_schema, Hcols, Hcol).
  split; [exact Hc |].
  intros Hplain. rewrite <- (escape_plain _ Hplain). exact Hc.
Qed.

(** C8, the claim as stated fails: a column name with letters outside
    ASCII is in the metadata and not in the prompt, which holds its
    escaped form instead. *)
Lemma non_ascii_column_name_is_not_in_prompt :
  let p := Generator.prompt "Show all sizes" (Some Samples.sizes_metadata) in
  In ("xtstock2025",
      {| Catalog.columns := [Samples.groesse];
         Catalog.description := EmptyString;
         Catalog.column_types := [(Samples.groesse, "int")] |})
     Samples.sizes_metadata /\
  PyStr.contains Samples.groesse p = false /\
  PyStr.contains ("gr" ++ bs ++ "u00f6" ++ bs ++ "u00dfe")%string p = true.
Proof.
  cbn zeta. split; [left; reflexivity |].
  split; vm_compute; reflexivity.
Qed.

(** ** Append-only traces *)

Section Frames.
Variable V : Type.

Lemma framed_ret A (a : A) : Eff.framed (V:=V) (Eff.ret a).
Proof. intros t0. cbn. rewrite app_nil_r. reflexivity. Qed.

Lemma framed_raise A (e : exn) : Eff.framed (V:=V) (A:=A) (Eff.raise e).
Proof. intros t0. cbn. rewrite app_nil_r. reflexivity. Qed.

Lemma framed_emit (ev : event V) : Eff.framed (Eff.emit ev).
Proof. intros t0. reflexivity. Qed.

Lemma framed_lift A (r : exn + A) : Eff.framed (V:=V) (Res.lift r).
Proof. destruct r; [apply framed_raise | apply framed_ret]. Qed.

Lemma framed_bind A B (m : Eff.M V A) (k : A -> Eff.M V B) :
  Eff.framed m -> (forall a, Eff.framed (k a)) -> Eff.framed (Eff.bind m k).
Proof.
  intros Hm Hk t0. unfold Eff.bind. rewrite (Hm t0).
  destruct (m []) as [[a | e] tm]; cbn [fst snd].
  - rewrite (Hk a (t0 ++ tm)), (Hk a tm). cbn [fst snd].
    rewrite app_assoc. reflexivity.
  - reflexivity.
Qed.

Lemma framed_try_except A (m : Eff.M V A) (h : exn -> Eff.M V A) :
  Eff.framed m -> (forall e, Eff.framed (h e)) ->
  Eff.framed (Eff.try_except m h).
Proof.
  intros Hm Hh t0. unfold Eff.try_except. rewrite (Hm t0).
  destruct (m []) as [[a | e] tm]; cbn [fst snd].
  - reflexivity.
  - rewrite (Hh e (t0 ++ tm)), (Hh e tm). cbn [fst snd].
    rewrite app_assoc. reflexivity.
Qed.

Lemma framed_try_finally A (m : Eff.M V A) (f : Eff.M V unit) :
  Eff.framed m -> Eff.framed f -> Eff.framed (Eff.try_finally m f).
Proof.
  intros Hm Hf t0. unfold Eff.try_finally. rewrite (Hm t0).
  destruct (m []) as [r tm]; cbn [fst snd].
  rewrite (Hf (t0 ++ tm)), (Hf tm).
  destruct (f []) as [[u | e] tf]; cbn [fst snd];
    rewrite app_assoc; reflexivity.
Qed.

Lemma framed_call (ev : event V) (r : option exn) : Eff.framed (Eff.call ev r).
Proof.
  apply framed_bind; [apply framed_emit |].
  intros _. destruct r; [apply framed_raise | apply framed_ret].
Qed.

Lemma framed_call_val A (ev : event V) (r : exn + A) :
  Eff.framed (Eff.call_val ev r).
Proof.
  apply framed_bind; [apply framed_emit |].
  intros _. destruct r; [apply framed_raise | apply framed_ret].
Qed.

(** Run a sequence whose first part is append-only. *)
Lemma bind_framed A B (m : Eff.M V A) (k : A -> Eff.M V B) t0 :
  Eff.framed m ->
  Eff.bind m k t0 =
    match fst (Eff.run m) with
    | Returns a => k a (t0 ++ snd (Eff.run m))
    | Raises e => (Raises e, t0 ++ snd (Eff.run m))
    end.
Proof.
  intros Hm. unfold Eff.bind, Eff.run. rewrite (Hm t0).
  destruct (m []) as [[a | e] tm]; reflexivity.
Qed.

Lemma calls_app (p : event V -> bool) (t1 t2 : list (event V)) :
  Executor.calls p (t1 ++ t2) = Executor.calls p t1 + Executor.calls p t2.
Proof. unfold Executor.calls. rewrite filter_app, length_app. reflexivity. Qed.

Lemma calls_none (p : event V -> bool) (t : list (event V)) :
  Forall (fun ev => p ev = false) t -> Executor.calls p t = 0.
Proof.
  unfold Executor.calls. induction 1 as [| ev t Hev _ IH]; cbn.
  - reflexivity.
  - rewrite Hev. exact IH.
Qed.

End Frames.

Ltac framed :=
  repeat (intros;
          first [ apply framed_ret | apply framed_raise | apply framed_emit
                | apply framed_lift | apply framed_call | apply framed_call_val
                | apply framed_bind | apply framed_try_except
                | apply framed_try_finally
                | match goal with
                  | |- Eff.framed (if ?b then _ else _) => destruct b
                  | |- Eff.framed (match ?x with _ => _ end) => destruct x
                  end ]).

Lemma framed_execute_sql_query (V : Type) (cfg : Executor.config)
    (w : Executor.world V) (query : string) (params : option (list V)) :
  Eff.framed (Executor.execute_sql_query cfg w query params).
Proof.
  unfold Executor.execute_sql_query, Executor.cursor_block,
    Executor.column_names, Eff.with_.
  cbn zeta. framed.
Qed.

Lemma framed_generate_sql_query (V : Type) (w : Generator.world)
    (q : string) (md : option Catalog.metadata) :
  Eff.framed (Generator.generate_sql_query V w q md).
Proof. unfold Generator.generate_sql_query. cbn zeta. framed. Qed.

(** The executor only calls the database driver. *)
Lemma execute_db_events_only (V : Type) (cfg : Executor.config)
    (w : Executor.world V) (query : string) (params : option (list V)) :
  Forall (fun ev => Executor.is_db_event ev = true)
    (snd (Eff.run (Executor.execute_sql_query cfg w query params))).
Proof.
  unfold Executor.execute_sql_query, Executor.cursor_block,
    Executor.column_names.
  eff_unfold. eff_cases; cbn; repeat constructor.
Qed.

(** ** Claims about the page *)

(** The trace of [main] for a submitted, non-empty question: the page
    calls, then the generator's trace, then what follows the generator. *)
Lemma main_trace_after_submit (V : Type) (inp : Page.inputs)
    (gw : Generator.world) (cfg : Executor.config) (dw : Executor.world V)
    (md : option Catalog.metadata) :
  Page.submit_button inp = true ->
  PyStr.truthy (Page.user_input inp) = true ->
  Page.session_metadata inp = inr md ->
  exists rest,
    snd (Eff.run (Page.main inp gw cfg dw)) =
      [EvPage "set_page_config"; EvPage "title"; EvPage "markdown";
       EvPage "columns"; EvPage "text_area"; EvPage "checkbox";
       EvPage "button"; EvPage "spinner"]
      ++ snd (Eff.run (Generator.generate_sql_query V gw
                         (Page.user_input inp) md))
      ++ rest /\
    Forall (fun ev => Page.is_bedrock_client ev = false /\
                      Page.is_invoke_model ev = false /\
                      Page.is_warning ev = false) rest.
Proof.
  intros Hsubmit Htruthy Hsess.
  unfold Page.main. rewrite Hsubmit, Htruthy, Hsess. cbn [andb].
  unfold Eff.run at 1.
  repeat (rewrite bind_framed by apply framed_emit;
          cbn [Eff.run Eff.emit fst snd app]).
  rewrite bind_framed by apply framed_lift.
  cbn [Eff.run Res.lift Eff.ret fst snd app].
  rewrite bind_framed by apply framed_generate_sql_query.
  destruct (Eff.run (Generator.generate_sql_query V gw (Page.user_input inp) md))
    as [[[sql |] | e] tg]; cbn [fst snd].
  - destruct (PyStr.truthy sql).
    + repeat (rewrite bind_framed by apply framed_emit;
              cbn [Eff.run Eff.emit fst snd app]).
      destruct (Page.execute_query inp).
      * rewrite bind_framed by apply framed_execute_sql_query.
        pose proof (execute_db_events_only cfg dw sql None) as Hdb.
        destruct (Eff.run (Executor.execute_sql_query cfg dw sql None))
          as [[res | e] te]; cbn [fst snd] in *.
        -- repeat (rewrite bind_framed by apply framed_emit;
                   cbn [Eff.run Eff.emit fst snd app]).
           cbn [Eff.emit snd].
           exists ([EvSubheader "Generated SQL Query:"; EvCode sql] ++ te
                   ++ [EvSubheader "Query Results:"; EvDataframe res]).
           split.
           { cbn [snd app]. repeat (rewrite <- app_assoc; cbn [app]). reflexivity. }
           repeat constructor.
           apply Forall_app. split.
           ++ eapply Forall_impl; [| exact Hdb].
              intros [] H; cbn in *; try discriminate; auto.
           ++ repeat constructor.
        -- exists ([EvSubheader "Generated SQL Query:"; EvCode sql] ++ te).
           split.
           { cbn [snd app]. repeat (rewrite <- app_assoc; cbn [app]). reflexivity. }
           repeat constructor.
           eapply Forall_impl; [| exact Hdb].
           intros [] H; cbn in *; try discriminate; auto.
      * cbn [Eff.ret snd].
        exists [EvSubheader "Generated SQL Query:"; EvCode sql]. split.
        { cbn [snd app]. repeat (rewrite <- app_assoc; cbn [app]). reflexivity. }
        repeat constructor.
    + cbn [Eff.ret snd]. exists []. split; [| constructor].
      rewrite app_nil_r. reflexivity.
  - cbn [Eff.ret snd]. exists []. split; [| constructor].
    rewrite app_nil_r. reflexivity.
  - exists []. split; [| constructor]. rewrite app_nil_r. reflexivity.
Qed.

(** What the generator's trace holds. *)
Lemma generate_trace_counts (V : Type) (w : Generator.world) (q : string)
    (md : option Catalog.metadata) :
  let t := snd (Eff.run (Generator.generate_sql_query V w q md)) in
  Executor.calls Page.is_bedrock_client t = 1 /\
  Executor.calls Page.is_warning t = 0 /\
  (Generator.br_client w = None ->
   Executor.calls Page.is_invoke_model t = 1 /\
   In (EvInvokeModel (Generator.request (Generator.prompt q md))) t).
Proof.
  pose proof (generate_sql_query_cases V w q md) as H. cbn zeta in *.
  destruct (Generator.br_client w) as [e |].
  - rewrite H. cbn. repeat split; discriminate.
  - destruct (Generator.br_invoke w _) as [e | [e | body]];
      [| | destruct (Generator.completion_text body)];
      rewrite H; cbn; repeat split; auto.
Qed.

(** When nothing was stored under [st.session_state.metadata], reading
    it raises and [main] stops before the generator is reached. *)
Lemma main_without_session_metadata_raises (V : Type) (inp : Page.inputs)
    (gw : Generator.world) (cfg : Executor.config) (dw : Executor.world V)
    (e : exn) :
  Page.submit_button inp = true ->
  PyStr.truthy (Page.user_input inp) = true ->
  Page.session_metadata inp = inl e ->
  let r := Eff.run (Page.main inp gw cfg dw) in
  fst r = Raises e /\ Executor.calls Page.is_bedrock_client (snd r) = 0.
Proof.
  intros Hsubmit Htruthy Hsess r. subst r.
  unfold Page.main. rewrite Hsubmit, Htruthy, Hsess.
  split; reflexivity.
Qed.

(** Without a submission, or with an empty question, [main] only draws
    the page. *)
Lemma main_without_submission (V : Type) (inp : Page.inputs)
    (gw : Generator.world) (cfg : Executor.config) (dw : Executor.world V) :
  Page.submit_button inp && PyStr.truthy (Page.user_input inp) = false ->
  Eff.run (Page.main inp gw cfg dw) =
    (Returns tt,
     [EvPage "set_page_config"; EvPage "title"; EvPage "markdown";
      EvPage "columns"; EvPage "text_area"; EvPage "checkbox";
      EvPage "button"]).
Proof.
  intros H. unfold Page.main. eff_unfold. rewrite H. reflexivity.
Qed.

(** [main] has no check of the metadata either.  Were the result of a
    fetch stored in the session (no code of the program does so), a
    submitted, non-empty question would reach [generate_sql_query] once
    with it, empty or null as it may be, and [main] would show no
    warning. *)
Theorem generation_is_attempted_whatever_the_metadata (V : Type)
    (cw : Catalog.world) (inp : Page.inputs) (gw : Generator.world)
    (cfg : Executor.config) (dw : Executor.world V)
    (fetched : option Catalog.metadata) :
  fst (Eff.run (Catalog.get_table_metadata V cw)) = Returns fetched ->
  Page.session_metadata inp = inr fetched ->
  Page.submit_button inp = true ->
  PyStr.truthy (Page.user_input inp) = true ->
  let tf := snd (Eff.run (Catalog.get_table_metadata V cw)) in
  let t := snd (Eff.run (Page.main inp gw cfg dw)) in
  (fetched = Some [] ->
   Executor.calls Page.is_warning tf = 1 /\ Executor.calls Page.is_error tf = 0) /\
  (fetched = None ->
   Executor.calls Page.is_warning tf = 0 /\ Executor.calls Page.is_error tf = 1) /\
  Executor.calls Page.is_bedrock_client t = 1 /\
  Executor.calls Page.is_warning t = 0 /\
  (Generator.br_client gw = None ->
   Executor.calls Page.is_invoke_model t = 1 /\
   In (EvInvokeModel
         (Generator.request (Generator.prompt (Page.user_input inp) fetched)))
      t).
Proof.
  intros Hfetch Hsess Hsubmit Htruthy tf t.
  assert (Hclient : Catalog.glue_client cw = None).
  { destruct (Catalog.glue_client cw) as [e |] eqn:Hc; [| reflexivity].
    revert Hfetch. unfold Catalog.get_table_metadata. eff_unfold.
    rewrite Hc. discriminate. }
  split; [| split].
  - intros ->.
    destruct (get_table_metadata_cases V cw Hclient)
      as [(md & Hres & _ & Herr & Hwarn) | (Hres & _)];
      rewrite Hfetch in Hres; [| discriminate].
    injection Hres as <-. split; assumption.
  - intros ->.
    destruct (get_table_metadata_cases V cw Hclient)
      as [(md & Hres & _) | (_ & Herr & Hwarn)];
      [rewrite Hfetch in Hres; discriminate |].
    split; assumption.
  - destruct (@main_trace_after_submit V inp gw cfg dw fetched Hsubmit Htruthy Hsess)
      as (rest & Ht & Hrest).
    fold t in Ht.
    destruct (generate_trace_counts V gw (Page.user_input inp) fetched)
      as (Hbc & Hw & Hinv).
    assert (Hr1 : Executor.calls Page.is_bedrock_client rest = 0).
    { apply calls_none. eapply Forall_impl; [| exact Hrest].
      intros ev (H & _ & _). exact H. }
    assert (Hr2 : Executor.calls Page.is_invoke_model rest = 0).
    { apply calls_none. eapply Forall_impl; [| exact Hrest].
      intros ev (_ & H & _). exact H. }
    assert (Hr3 : Executor.calls Page.is_warning rest = 0).
    { apply calls_none. eapply Forall_impl; [| exact Hrest].
      intros ev (_ & _ & H). exact H. }
    rewrite Ht. rewrite !calls_app, Hbc, Hw, Hr1, Hr3.
    split; [reflexivity |]. split; [reflexivity |].
    intros Hgc. destruct (Hinv Hgc) as [Hcount Hin].
    rewrite Hcount, Hr2. split; [reflexivity |].
    apply in_or_app. right. apply in_or_app. left. exact Hin.
Qed.

Lemma generation_is_attempted_whatever_the_metadata_witness :
  let inp := Samples.page_inputs (Some []) in
  let gw := Samples.bedrock_answers "SELECT * FROM xtstock2025;" in
  let tf := snd (Eff.run (Catalog.get_table_metadata Z Samples.glue_no_target)) in
  let t := snd (Eff.run (Page.main inp gw Samples.cfg Samples.db_ok)) in
  (Some [] = Some ([] : Catalog.metadata) ->
   Executor.calls Page.is_warning tf = 1 /\ Executor.calls Page.is_error tf = 0) /\
  (Some ([] : Catalog.metadata) = None ->
   Executor.calls Page.is_warning tf = 0 /\ Executor.calls Page.is_error tf = 1) /\
  Executor.calls Page.is_bedrock_client t = 1 /\
  Executor.calls Page.is_warning t = 0 /\
  (Generator.br_client gw = None ->
   Executor.calls Page.is_invoke_model t = 1 /\
   In (EvInvokeModel
         (Generator.request (Generator.prompt (Page.user_input inp) (Some []))))
      t).
Proof.
  intros inp gw.
  apply (@generation_is_attempted_whatever_the_metadata Z
           Samples.glue_no_target inp gw Samples.cfg Samples.db_ok (Some [])).
  - reflexivity.
  - reflexivity.
  - reflexivity.
  - reflexivity.
Defined.

(** The same on a sample: with the empty map put in the session, a
    submitted question reaches the model. *)
Lemma empty_metadata_does_not_block_generation :
  let inp := Samples.page_inputs (Some []) in
  let gw := Samples.bedrock_answers "SELECT * FROM xtstock2025;" in
  let t := snd (Eff.run (Page.main inp gw Samples.cfg Samples.db_ok)) in
  fst (Eff.run (Catalog.get_table_metadata Z Samples.glue_no_target)) =
    Returns (Some []) /\
  Executor.calls Page.is_bedrock_client t = 1 /\
  Executor.calls Page.is_invoke_model t = 1 /\
  Executor.calls Page.is_warning t = 0 /\
  In (EvCode "SELECT * FROM xtstock2025;") t.
Proof.
  cbn zeta. split; [reflexivity |].
  split; [vm_compute; reflexivity |].
  split; [vm_compute; reflexivity |].
  split; [vm_compute; reflexivity |].
  vm_compute. auto 20.
Qed.

(** ** Errors that reach the caller *)

(** C10 (as amended): [get_table_metadata] and [generate_sql_query] never
    raise once their client is created: each returns its normal result
    without an error message, or shows an error message and returns
    [None].  An error raised while the client is created, before the
    [try] block, reaches the caller. *)
Theorem fetcher_and_generator_raise_only_from_client_creation (V : Type)
    (cw : Catalog.world) (gw : Generator.world) (q : string)
    (md : option Catalog.metadata) :
  let rf := Eff.run (Catalog.get_table_metadata V cw) in
  let rg := Eff.run (Generator.generate_sql_query V gw q md) in
  match Catalog.glue_client cw with
  | None =>
      (exists m, fst rf = Returns (Some m) /\
                 Executor.calls Page.is_error (snd rf) = 0) \/
      (fst rf = Returns None /\ Executor.calls Page.is_error (snd rf) = 1)
  | Some e =>
      fst rf = Raises e /\ Executor.calls Page.is_error (snd rf) = 0
  end /\
  match Generator.br_client gw with
  | None =>
      (exists sql, fst rg = Returns (Some sql) /\
                   Executor.calls Page.is_error (snd rg) = 0) \/
      (fst rg = Returns None /\ Executor.calls Page.is_error (snd rg) = 2)
  | Some e =>
      fst rg = Raises e /\ Executor.calls Page.is_error (snd rg) = 0
  end.
Proof.
  intros rf rg. split.
  - destruct (Catalog.glue_client cw) as [e |] eqn:Hc.
    + subst rf. unfold Catalog.get_table_metadata. eff_unfold.
      rewrite Hc. split; reflexivity.
    + destruct (get_table_metadata_cases V cw Hc)
        as [(m & Hres & _ & Herr & _) | (Hres & Herr & _)].
      * left. exists m. split; assumption.
      * right. split; assumption.
  - pose proof (generate_sql_query_cases V gw q md) as H. cbn zeta in H.
    fold rg in H.
    destruct (Generator.br_client gw) as [e |].
    + rewrite H. split; reflexivity.
    + destruct (Generator.br_invoke gw _) as [e | [e | body]];
        [| | destruct (Generator.completion_text body) as [e | text]];
        rewrite H; cbn;
        first [ right; split; reflexivity
              | left; eexists; split; reflexivity ].
Qed.

(** C10, the claim as stated fails: with no region configured the
    client cannot be created, and both functions raise. *)
Lemma client_creation_error_reaches_the_caller :
  fst (Eff.run (Catalog.get_table_metadata Z Samples.glue_no_region)) =
    Raises "You must specify a region." /\
  fst (Eff.run (Generator.generate_sql_query Z Samples.bedrock_no_region
                  "Show all sizes" (Some Samples.stock_metadata))) =
    Raises "You must specify a region.".
Proof. split; reflexivity. Qed.

(** * Further properties of the executor *)

(** X1: A statement that is not a mutation is never committed, whatever the
    driver does. *)
Theorem read_statement_is_never_committed (V : Type) (cfg : Executor.config)
    (w : Executor.world V) (query : string) (params : option (list V)) :
  Executor.is_mutation query = false ->
  Executor.calls Executor.is_commit
    (snd (Eff.run (Executor.execute_sql_query cfg w query params))) = 0.
Proof.
  intros Hread.
  unfold Executor.execute_sql_query, Executor.cursor_block,
    Executor.column_names.
  eff_unfold. rewrite Hread. eff_cases; reflexivity.
Qed.

Lemma read_statement_is_never_committed_witness :
  Executor.calls Executor.is_commit
    (snd (Eff.run (Executor.execute_sql_query Samples.cfg Samples.db_ok
                     Samples.select_query None))) = 0.
Proof.
  apply (@read_statement_is_never_committed Z Samples.cfg Samples.db_ok
           Samples.select_query None).
  reflexivity.
Defined.

(** X2: A statement for which [execute] returns and that leaves no result
    descriptor ([cursor.description] is [None], as after a plain update)
    is an error to the caller: the call raises a wrapped error, rolls
    back once and never commits. *)
Theorem statement_without_result_set_is_never_committed (V : Type)
    (cfg : Executor.config) (w : Executor.world V) (query : string)
    (params : option (list V)) :
  Executor.connected cfg w ->
  Executor.db_cursor w = None ->
  Executor.db_execute w query (Executor.execute_arg params) = None ->
  Executor.db_description w = None ->
  let r := Eff.run (Executor.execute_sql_query cfg w query params) in
  (exists msg, fst r = Raises ("Database connection error: " ++ msg)%string) /\
  Executor.calls Executor.is_commit (snd r) = 0 /\
  Executor.calls Executor.is_rollback (snd r) = 1.
Proof.
  intros Hconn Hcur Hexec Hdesc.
  exact (@statement_without_result_set_is_rolled_back V cfg w query params
           Hconn Hcur Hexec Hdesc).
Qed.

Lemma statement_without_result_set_is_never_committed_witness :
  let r := Eff.run (Executor.execute_sql_query Samples.cfg
                      Cases.db_no_result_set "UPDATE t SET x=1" None) in
  (exists msg, fst r = Raises ("Database connection error: " ++ msg)%string) /\
  Executor.calls Executor.is_commit (snd r) = 0 /\
  Executor.calls Executor.is_rollback (snd r) = 1.
Proof.
  apply (@statement_without_result_set_is_never_committed Z Samples.cfg
           Cases.db_no_result_set "UPDATE t SET x=1" None).
  - split; reflexivity.
  - reflexivity.
  - reflexivity.
  - reflexivity.
Defined.

(** X3: When [pymssql.connect] raises, the error is wrapped once and nothing
    else is called: no cursor, no rollback, no close. *)
Theorem refused_connection_is_wrapped_without_cleanup (V : Type)
    (cfg : Executor.config) (w : Executor.world V) (query : string)
    (params : option (list V)) (e : exn) :
  forallb Executor.entry_truthy
    [Executor.server cfg; Executor.database cfg; Executor.uid cfg;
     Executor.pwd cfg] = true ->
  Executor.db_connect w (Executor.server cfg) (Executor.database cfg)
    (Executor.uid cfg) (Executor.pwd cfg) = Some e ->
  Eff.run (Executor.execute_sql_query cfg w query params) =
    (Raises ("Database connection error: " ++ e)%string,
     [EvConnect (Executor.server cfg) (Executor.database cfg)
        (Executor.uid cfg) (Executor.pwd cfg)]).
Proof.
  intros Hcfg Hconn. unfold Executor.execute_sql_query. eff_unfold.
  rewrite Hcfg, Hconn. reflexivity.
Qed.

Lemma refused_connection_is_wrapped_without_cleanup_witness :
  Eff.run (Executor.execute_sql_query Samples.cfg Cases.db_unreachable
             Samples.select_query None) =
    (Raises ("Database connection error: " ++ "Login failed")%string,
     [EvConnect (Executor.server Samples.cfg) (Executor.database Samples.cfg)
        (Executor.uid Samples.cfg) (Executor.pwd Samples.cfg)]).
Proof.
  apply (@refused_connection_is_wrapped_without_cleanup Z Samples.cfg
           Cases.db_unreachable Samples.select_query None "Login failed");
    reflexivity.
Defined.

(** The [execute] events of a run. *)
Lemma execute_events_name_the_statement (V : Type)
    (cfg : Executor.config) (w : Executor.world V) (query : string)
    (params : option (list V)) :
  let t := snd (Eff.run (Executor.execute_sql_query cfg w query params)) in
  Executor.calls Executor.is_execute t <= 1 /\
  forall q p,
    In (EvExecute q p) t ->
    q = query /\
    match p with
    | Some (x :: xs) => params = Some (x :: xs)
    | Some [] => False
    | None => params = None \/ params = Some []
    end.
Proof.
  unfold Executor.execute_sql_query, Executor.cursor_block,
    Executor.column_names.
  eff_unfold.
  destruct params as [[| x xs] |]; cbn [Executor.params_truthy];
    eff_cases; cbn; (split; [lia |]);
    intros q p Hin;
    repeat match goal with
           | H : _ \/ _ |- _ => destruct H
           | H : False |- _ => destruct H
           | H : _ = EvExecute _ _ |- _ => inversion H; subst; clear H
           end;
    auto.
Qed.

(** X4: The statement reaches the driver as it was given and at most once;
    parameters are passed only when the tuple is not empty. *)
Theorem statement_is_executed_verbatim_at_most_once (V : Type)
    (cfg : Executor.config) (w : Executor.world V) (query : string)
    (params : option (list V)) :
  let t := snd (Eff.run (Executor.execute_sql_query cfg w query params)) in
  Executor.calls Executor.is_execute t <= 1 /\
  forall q p,
    In (EvExecute q p) t ->
    q = query /\
    match p with
    | Some (x :: xs) => params = Some (x :: xs)
    | Some [] => False
    | None => params = None \/ params = Some []
    end.
Proof. exact (execute_events_name_the_statement cfg w query params). Qed.

(** X5: Once connected, the trace starts with the [connect] and ends with the
    [close]; a rollback, if any, is the last call before the [close]. *)
Theorem connection_is_opened_first_and_closed_last (V : Type)
    (cfg : Executor.config) (w : Executor.world V) (query : string)
    (params : option (list V)) :
  Executor.connected cfg w ->
  let t := snd (Eff.run (Executor.execute_sql_query cfg w query params)) in
  hd_error t =
    Some (EvConnect (Executor.server cfg) (Executor.database cfg)
            (Executor.uid cfg) (Executor.pwd cfg)) /\
  last t EvCursor = EvClose /\
  Executor.calls Executor.is_connect t = 1 /\
  (Executor.calls Executor.is_rollback t = 0 \/
   skipn (length t - 2) t = [EvRollback; EvClose]).
Proof.
  intros [Hcfg Hconn].
  unfold Executor.execute_sql_query, Executor.cursor_block,
    Executor.column_names.
  eff_unfold. rewrite Hcfg, Hconn. cbn [negb].
  eff_cases; cbn; repeat split; auto.
Qed.

Lemma connection_is_opened_first_and_closed_last_witness :
  let t := snd (Eff.run (Executor.execute_sql_query Samples.cfg
                           Samples.db_rollback_fails Samples.select_query
                           None)) in
  hd_error t =
    Some (EvConnect (Executor.server Samples.cfg)
            (Executor.database Samples.cfg) (Executor.uid Samples.cfg)
            (Executor.pwd Samples.cfg)) /\
  last t EvCursor = EvClose /\
  Executor.calls Executor.is_connect t = 1 /\
  (Executor.calls Executor.is_rollback t = 0 \/
   skipn (length t - 2) t = [EvRollback; EvClose]).
Proof.
  apply (@connection_is_opened_first_and_closed_last Z Samples.cfg
           Samples.db_rollback_fails Samples.select_query None).
  split; reflexivity.
Defined.

(** X6: A mutation whose commit fails is rolled back once and reported as an
    execution error; the connection is still closed. *)
Theorem failed_commit_is_rolled_back (V : Type) (cfg : Executor.config)
    (w : Executor.world V) (query : string) (params : option (list V))
    (cols : list Executor.column) (rows : list (list V)) (e : exn) :
  Executor.connected cfg w ->
  Executor.db_cursor w = None ->
  Executor.db_execute w query (Executor.execute_arg params) = None ->
  Executor.db_description w = Some cols ->
  Executor.db_fetchall w = inr rows ->
  Executor.is_mutation query = true ->
  Executor.db_commit w = Some e ->
  let r := Eff.run (Executor.execute_sql_query cfg w query params) in
  Executor.calls Executor.is_commit (snd r) = 1 /\
  Executor.calls Executor.is_rollback (snd r) = 1 /\
  Executor.calls Executor.is_close (snd r) = 1 /\
  exists msg,
    fst r = Raises ("Database connection error: " ++ msg)%string /\
    (Executor.db_cursor_exit w = None -> Executor.db_rollback w = None ->
     Executor.db_close w = None ->
     msg = ("Error executing query: " ++ e)%string).
Proof.
  intros [Hcfg Hconn] Hcur Hexec Hdesc Hfetch Hmut Hcommit r. subst r.
  unfold Executor.execute_sql_query, Executor.cursor_block,
    Executor.column_names, Executor.execute_arg in *.
  eff_unfold.
  rewrite Hcfg, Hconn, Hcur, Hdesc, Hfetch, Hmut, Hcommit. cbn [negb].
  destruct (Executor.params_truthy params); rewrite Hexec;
    eff_cases; cbn; repeat (split; [reflexivity |]);
    eexists; (split; [reflexivity |]); intros; congruence.
Qed.

Lemma failed_commit_is_rolled_back_witness :
  let r := Eff.run (Executor.execute_sql_query Samples.cfg
                      Cases.db_commit_fails Samples.update_query None) in
  Executor.calls Executor.is_commit (snd r) = 1 /\
  Executor.calls Executor.is_rollback (snd r) = 1 /\
  Executor.calls Executor.is_close (snd r) = 1 /\
  exists msg,
    fst r = Raises ("Database connection error: " ++ msg)%string /\
    (Executor.db_cursor_exit Cases.db_commit_fails = None ->
     Executor.db_rollback Cases.db_commit_fails = None ->
     Executor.db_close Cases.db_commit_fails = None ->
     msg = ("Error executing query: " ++ "Transaction was deadlocked")%string).
Proof.
  apply (@failed_commit_is_rolled_back Z Samples.cfg Cases.db_commit_fails
           Samples.update_query None Samples.stock_columns Samples.stock_rows
           "Transaction was deadlocked").
  - split; reflexivity.
  - reflexivity.
  - reflexivity.
  - reflexivity.
  - reflexivity.
  - reflexivity.
  - reflexivity.
Defined.

(** X7: When only the [close] fails, the caller gets its error although the
    statement ran: nothing is rolled back, and a mutation stays
    committed. *)
Theorem failed_close_hides_a_completed_statement (V : Type)
    (cfg : Executor.config) (w : Executor.world V) (query : string)
    (params : option (list V)) (cols : list Executor.column)
    (rows : list (list V)) (e : exn) :
  Executor.connected cfg w ->
  Executor.db_cursor w = None ->
  Executor.db_execute w query (Executor.execute_arg params) = None ->
  Executor.db_description w = Some cols ->
  Executor.db_fetchall w = inr rows ->
  Executor.db_commit w = None ->
  Executor.db_cursor_exit w = None ->
  Executor.db_close w = Some e ->
  let r := Eff.run (Executor.execute_sql_query cfg w query params) in
  fst r = Raises ("Database connection error: " ++ e)%string /\
  Executor.calls Executor.is_rollback (snd r) = 0 /\
  Executor.calls Executor.is_commit (snd r) =
    (if Executor.is_mutation query then 1 else 0).
Proof.
  intros [Hcfg Hconn] Hcur Hexec Hdesc Hfetch Hcommit Hexit Hclose r. subst r.
  unfold Executor.execute_sql_query, Executor.cursor_block,
    Executor.column_names, Executor.execute_arg in *.
  eff_unfold.
  rewrite Hcfg, Hconn, Hcur, Hdesc, Hfetch, Hcommit, Hexit, Hclose.
  cbn [negb].
  destruct (Executor.params_truthy params); rewrite Hexec;
    destruct (Executor.is_mutation query); repeat split; reflexivity.
Qed.

Lemma failed_close_hides_a_completed_statement_witness :
  let r := Eff.run (Executor.execute_sql_query Samples.cfg
                      Cases.db_close_fails Samples.update_query None) in
  fst r = Raises ("Database connection error: " ++ "Connection reset")%string /\
  Executor.calls Executor.is_rollback (snd r) = 0 /\
  Executor.calls Executor.is_commit (snd r) =
    (if Executor.is_mutation Samples.update_query then 1 else 0).
Proof.
  apply (@failed_close_hides_a_completed_statement Z Samples.cfg
           Cases.db_close_fails Samples.update_query None
           Samples.stock_columns Samples.stock_rows "Connection reset").
  - split; reflexivity.
  - reflexivity.
  - reflexivity.
  - reflexivity.
  - reflexivity.
  - reflexivity.
  - reflexivity.
  - reflexivity.
Defined.

(** X10: When the rollback itself fails, its error replaces the statement's:
    the caller sees the rollback's message behind the outer prefix only,
    and the connection is still closed. *)
Theorem failed_rollback_masks_the_statement_error (V : Type)
    (cfg : Executor.config) (w : Executor.world V) (query : string)
    (params : option (list V)) (e e' : exn) :
  Executor.connected cfg w ->
  Executor.db_cursor w = None ->
  Executor.db_execute w query (Executor.execute_arg params) = Some e ->
  Executor.db_rollback w = Some e' ->
  Executor.db_close w = None ->
  let r := Eff.run (Executor.execute_sql_query cfg w query params) in
  fst r = Raises ("Database connection error: " ++ e')%string /\
  Executor.calls Executor.is_rollback (snd r) = 1 /\
  Executor.calls Executor.is_close (snd r) = 1.
Proof.
  intros [Hcfg Hconn] Hcur Hexec Hrb Hclose r. subst r.
  unfold Executor.execute_sql_query, Executor.cursor_block,
    Executor.column_names, Executor.execute_arg in *.
  eff_unfold. rewrite Hcfg, Hconn, Hcur, Hrb, Hclose. cbn [negb].
  destruct (Executor.params_truthy params); rewrite Hexec;
    destruct (Executor.db_cursor_exit w); repeat split; reflexivity.
Qed.

Lemma failed_rollback_masks_the_statement_error_witness :
  let r := Eff.run (Executor.execute_sql_query Samples.cfg
                      Samples.db_rollback_fails Samples.select_query None) in
  fst r = Raises ("Database connection error: " ++ "Connection is closed")%string /\
  Executor.calls Executor.is_rollback (snd r) = 1 /\
  Executor.calls Executor.is_close (snd r) = 1.
Proof.
  apply (@failed_rollback_masks_the_statement_error Z Samples.cfg
           Samples.db_rollback_fails Samples.select_query None
           "Invalid object name" "Connection is closed").
  - split; reflexivity.
  - reflexivity.
  - reflexivity.
  - reflexivity.
  - reflexivity.
Defined.

(** X8: The call returns exactly when the configuration is complete and every
    driver call it makes returns: connect, cursor, execute, a result
    descriptor, fetchall, the commit of a mutation, the cursor's exit and
    close. *)
Theorem executor_returns_exactly_when_every_step_succeeds (V : Type)
    (cfg : Executor.config) (w : Executor.world V) (query : string)
    (params : option (list V)) :
  (exists res,
     fst (Eff.run (Executor.execute_sql_query cfg w query params)) =
       Returns res)
  <->
  (Executor.connected cfg w /\
   Executor.db_cursor w = None /\
   Executor.db_execute w query (Executor.execute_arg params) = None /\
   (exists cols, Executor.db_description w = Some cols) /\
   (exists rows, Executor.db_fetchall w = inr rows) /\
   (Executor.is_mutation query = true -> Executor.db_commit w = None) /\
   Executor.db_cursor_exit w = None /\
   Executor.db_close w = None).
Proof.
  unfold Executor.connected, Executor.execute_sql_query,
    Executor.cursor_block, Executor.column_names, Executor.execute_arg.
  eff_unfold.
  destruct (forallb _ _) eqn:Hcfg; cbn [negb];
    [| split; [intros [res H]; discriminate H
              | intros [[H _] _]; discriminate H]].
  destruct (Executor.db_connect w _ _ _ _) eqn:Hconn;
    [split; [intros [res H]; discriminate H
            | intros [[_ H] _]; discriminate H] |].
  destruct (Executor.params_truthy params);
    eff_cases; cbn;
    (split;
     [ intros [res H]; try discriminate H;
       repeat split; eauto; intros; congruence
     | intros (_ & H1 & H2 & [cols H3] & [rows H4] & H5 & H6 & H7);
       try discriminate;
       try (specialize (H5 eq_refl); discriminate);
       eexists; reflexivity ]).
Qed.

(** * Which statements count as mutations *)

Section MutationFacts.
Local Open Scope string_scope.

Lemma lower_app (a b : string) :
  PyStr.lower (a ++ b) = PyStr.lower a ++ PyStr.lower b.
Proof. induction a as [| c a IH]; cbn; [| rewrite IH]; reflexivity. Qed.

Lemma lstrip_blank_prefix (ws s : string) :
  Shape.blank ws = true -> PyStr.lstrip (ws ++ s) = PyStr.lstrip s.
Proof.
  unfold Shape.blank. induction ws as [| c ws IH]; cbn; [reflexivity |].
  intros H. apply andb_true_iff in H. destruct H as [Hc Hws].
  rewrite Hc. apply IH, Hws.
Qed.

Lemma rstrip_solid_prefix (kw rest : string) :
  forallb (fun c => negb (PyStr.isspace c)) (list_ascii_of_string kw) = true ->
  PyStr.rstrip (kw ++ rest) = kw ++ PyStr.rstrip rest.
Proof.
  induction kw as [| c kw IH]; cbn; [reflexivity |].
  intros H. apply andb_true_iff in H. destruct H as [Hc Hkw].
  rewrite (IH Hkw). apply negb_true_iff in Hc. rewrite Hc.
  destruct (kw ++ PyStr.rstrip rest); reflexivity.
Qed.

Lemma strip_blank_then_keyword (ws kw rest : string) (c : ascii) (kw' : string) :
  Shape.blank ws = true ->
  kw = String c kw' ->
  forallb (fun c => negb (PyStr.isspace c)) (list_ascii_of_string kw) = true ->
  PyStr.strip (ws ++ kw ++ rest) = kw ++ PyStr.rstrip rest.
Proof.
  intros Hws Hkw Hsolid. unfold PyStr.strip.
  rewrite (lstrip_blank_prefix _ _ Hws).
  assert (Hl : PyStr.lstrip (kw ++ rest) = kw ++ rest).
  { subst kw. cbn in *. apply andb_true_iff in Hsolid.
    destruct Hsolid as [Hc _]. apply negb_true_iff in Hc.
    rewrite Hc. reflexivity. }
  rewrite Hl. apply rstrip_solid_prefix, Hsolid.
Qed.

End MutationFacts.

(** X9: A statement is treated as a mutation exactly when its lowercase form
    is some whitespace, then [insert], [update] or [delete], then
    anything: letter case and leading whitespace do not matter, and the
    keyword need not end a word. *)
Theorem mutation_is_a_keyword_after_whitespace (query : string) :
  Executor.is_mutation query = true <->
  exists ws kw rest,
    Shape.blank ws = true /\
    In kw ["insert"; "update"; "delete"] /\
    PyStr.lower query = (ws ++ kw ++ rest)%string.
Proof.
  unfold Executor.is_mutation, PyStr.startswith_any. split.
  - intros H. apply existsb_exists in H. destruct H as (kw & Hkw & Hpre).
    unfold PyStr.startswith in Hpre.
    destruct (prefix_split _ _ Hpre) as [b Hb].
    destruct (strip_spec (PyStr.lower query)) as [(a & c & Hsplit & Ha & _) _].
    exists a, kw, (b ++ c)%string. split; [exact Ha |]. split; [exact Hkw |].
    rewrite Hsplit at 1. rewrite Hb, str_app_assoc. reflexivity.
  - intros (ws & kw & rest & Hws & Hkw & Hlower).
    apply existsb_exists. exists kw. split; [exact Hkw |].
    unfold PyStr.startswith. rewrite Hlower.
    destruct Hkw as [<- | [<- | [<- | []]]];
      (erewrite strip_blank_then_keyword;
       [apply prefix_app | exact Hws | reflexivity | reflexivity]).
Qed.

(** * Further properties of the metadata fetcher *)

Section CatalogFacts.

Lemma scan_keys_nodup : forall tables md md',
  Catalog.scan tables md = inr md' ->
  NoDup (PyDict.keys md) -> NoDup (PyDict.keys md').
Proof.
  induction tables as [| table tables IH]; intros md md' Hscan Hnd.
  - cbn in Hscan. injection Hscan as <-. exact Hnd.
  - cbn [Catalog.scan] in Hscan. unfold Res.bind in Hscan.
    destruct (Res.getitem "Name" (Catalog.tbl_Name table)) as [e | n];
      [discriminate |].
    destruct (existsb (String.eqb n) Catalog.target_tables).
    + destruct (Catalog.table_entry table) as [e | entry]; [discriminate |].
      eapply IH; [exact Hscan |]. apply dict_nodup_keys_set, Hnd.
    + eauto.
Qed.

Lemma dict_in_set V (d : PyDict.dict V) k v k' v' :
  In (k', v') (PyDict.set d k v) -> In (k', v') d \/ (k' = k /\ v' = v).
Proof.
  induction d as [| [k0 v0] d IH]; cbn.
  - intros [H | []]. injection H as <- <-. right. split; reflexivity.
  - destruct (String.eqb_spec k0 k) as [-> | Hne]; cbn.
    + intros [H | H]; [injection H as <- <-; right; split; reflexivity |].
      left. right. exact H.
    + intros [H | H]; [left; left; exact H |].
      destruct (IH H) as [H' | H']; [left; right; exact H' | right; exact H'].
Qed.

(** Every entry of the result was built from a table of that name. *)
Lemma scan_entries_come_from_tables : forall tables md md',
  Catalog.scan tables md = inr md' ->
  forall name info, In (name, info) md' ->
    In (name, info) md \/
    exists table, In table tables /\ Catalog.tbl_Name table = Some name /\
                  Catalog.table_entry table = inr info.
Proof.
  induction tables as [| table tables IH]; intros md md' Hscan name info Hin.
  - cbn in Hscan. injection Hscan as <-. left. exact Hin.
  - cbn [Catalog.scan] in Hscan. unfold Res.bind in Hscan.
    destruct (Catalog.tbl_Name table) as [n |] eqn:Hname; cbn in Hscan;
      [| discriminate].
    destruct (String.eqb n "xtstock2025" || false) eqn:Htarget.
    + destruct (Catalog.table_entry table) as [e | entry] eqn:Hentry;
        [discriminate |].
      destruct (IH _ _ Hscan name info Hin) as [Hold | (t & Ht & Hn & He)].
      * apply dict_in_set in Hold. destruct Hold as [Hold | [-> ->]].
        -- left. exact Hold.
        -- right. exists table. split; [left; reflexivity |].
           split; assumption.
      * right. exists t. split; [right; exact Ht | split; assumption].
    + destruct (IH _ _ Hscan name info Hin) as [Hold | (t & Ht & Hn & He)].
      * left. exact Hold.
      * right. exists t. split; [right; exact Ht | split; assumption].
Qed.

Lemma column_names_spec : forall cols names,
  Catalog.column_names cols = inr names ->
  map Catalog.col_Name cols = map Some names.
Proof.
  induction cols as [| col cols IH]; intros names H; cbn in H.
  - injection H as <-. reflexivity.
  - unfold Res.bind in H.
    destruct (Catalog.col_Name col) as [n |] eqn:Hn; cbn in H; [| discriminate].
    destruct (Catalog.column_names cols) as [e | ns]; [discriminate |].
    injection H as <-. cbn. rewrite Hn, (IH ns eq_refl). reflexivity.
Qed.

Lemma column_type_map_spec : forall cols d d',
  Catalog.column_type_map cols d = inr d' ->
  exists names types,
    map Catalog.col_Name cols = map Some names /\
    map Catalog.col_Type cols = map Some types /\
    d' = fold_left (fun d kv => PyDict.set d (fst kv) (snd kv))
           (combine names types) d.
Proof.
  induction cols as [| col cols IH]; intros d d' H; cbn in H.
  - injection H as <-. exists [], []. repeat split; reflexivity.
  - unfold Res.bind in H.
    destruct (Catalog.col_Name col) as [n |] eqn:Hn; cbn in H; [| discriminate].
    destruct (Catalog.col_Type col) as [ty |] eqn:Hty; cbn in H;
      [| discriminate].
    destruct (IH _ _ H) as (names & types & Hnames & Htypes & ->).
    exists (n :: names), (ty :: types). cbn.
    rewrite Hn, Hty, Hnames, Htypes. repeat split; reflexivity.
Qed.

Lemma map_some_inj A (l l' : list A) : map Some l = map Some l' -> l = l'.
Proof.
  revert l'. induction l as [| a l IH]; intros [| a' l'] H; cbn in H;
    try discriminate; [reflexivity |].
  injection H as -> H. f_equal. apply IH, H.
Qed.

End CatalogFacts.

(** X11: Every entry of the returned map mirrors a catalog table of that name:
    its column list holds that table's column names in catalog order, its
    description is the table's (empty when absent), and its type map is
    [dict(zip(names, types))], so that its keys are exactly the listed
    columns. *)
Theorem fetched_entry_mirrors_its_catalog_table (V : Type)
    (w : Catalog.world) (md : Catalog.metadata) (name : string)
    (info : Catalog.table_info) :
  fst (Eff.run (Catalog.get_table_metadata V w)) = Returns (Some md) ->
  In (name, info) md ->
  exists response tables table sd cols types,
    Catalog.glue_get_tables w "sqlserver_metadata" = inr response /\
    Catalog.resp_TableList response = Some tables /\
    In table tables /\
    Catalog.tbl_Name table = Some name /\
    Catalog.tbl_StorageDescriptor table = Some sd /\
    Catalog.sd_Columns sd = Some cols /\
    map Catalog.col_Name cols = map Some (Catalog.columns info) /\
    map Catalog.col_Type cols = map Some types /\
    Catalog.description info =
      match Catalog.tbl_Description table with
      | Some d => d
      | None => EmptyString
      end /\
    Catalog.column_types info =
      PyDict.of_pairs (combine (Catalog.columns info) types) /\
    NoDup (PyDict.keys (Catalog.column_types info)) /\
    forall c, In c (PyDict.keys (Catalog.column_types info)) <->
              In c (Catalog.columns info).
Proof.
  intros Hres Hin.
  assert (Hclient : Catalog.glue_client w = None).
  { destruct (Catalog.glue_client w) as [e |] eqn:Hc; [| reflexivity].
    revert Hres. unfold Catalog.get_table_metadata. eff_unfold.
    rewrite Hc. discriminate. }
  destruct (get_table_metadata_cases V w Hclient)
    as [(md0 & Hres0 & (response & tables & Hget & Hlist & Hscan) & _)
       | (Hres0 & _)];
    rewrite Hres in Hres0; [| discriminate].
  injection Hres0 as <-.
  destruct (scan_entries_come_from_tables _ _ Hscan name info Hin)
    as [[] | (table & Ht & Hname & Hentry)].
  unfold Catalog.table_entry, Catalog.table_columns, Res.bind in Hentry.
  destruct (Catalog.tbl_StorageDescriptor table) as [sd |] eqn:Hsd;
    cbn in Hentry; [| discriminate].
  destruct (Catalog.sd_Columns sd) as [cols |] eqn:Hcols; cbn in Hentry;
    [| discriminate].
  destruct (Catalog.column_names cols) as [e | names] eqn:Hnames;
    [discriminate |].
  destruct (Catalog.column_type_map cols []) as [e | types_map] eqn:Htypes;
    [discriminate |].
  injection Hentry as <-. cbn [Catalog.columns Catalog.description
                                 Catalog.column_types].
  apply column_names_spec in Hnames.
  destruct (column_type_map_spec _ _ Htypes) as (names' & types & Hn' & Hty & ->).
  assert (names' = names) as ->
    by (apply map_some_inj; rewrite <- Hn', Hnames; reflexivity).
  exists response, tables, table, sd, cols, types.
  repeat (split; [assumption || reflexivity |]).
  split; [apply dict_nodup_keys_of_pairs |].
  intros c. apply dict_keys_zip.
  rewrite <- (length_map Some types), <- Hty, length_map.
  rewrite <- (length_map Some names), <- Hnames, length_map. reflexivity.
Qed.

Lemma fetched_entry_mirrors_its_catalog_table_witness :
  exists response tables table sd cols types,
    Catalog.glue_get_tables Samples.glue_ok "sqlserver_metadata" = inr response /\
    Catalog.resp_TableList response = Some tables /\
    In table tables /\
    Catalog.tbl_Name table = Some "xtstock2025" /\
    Catalog.tbl_StorageDescriptor table = Some sd /\
    Catalog.sd_Columns sd = Some cols /\
    map Catalog.col_Name cols = map Some ["category"; "stockqty"] /\
    map Catalog.col_Type cols = map Some types /\
    "Stock per article" =
      match Catalog.tbl_Description table with
      | Some d => d
      | None => EmptyString
      end /\
    [("category", "varchar"); ("stockqty", "int")] =
      PyDict.of_pairs (combine ["category"; "stockqty"] types) /\
    NoDup (PyDict.keys [("category", "varchar"); ("stockqty", "int")]) /\
    forall c, In c (PyDict.keys [("category", "varchar"); ("stockqty", "int")])
              <-> In c ["category"; "stockqty"].
Proof.
  apply (@fetched_entry_mirrors_its_catalog_table Z Samples.glue_ok
           Samples.stock_metadata "xtstock2025"
           {| Catalog.columns := ["category"; "stockqty"];
              Catalog.description := "Stock per article";
              Catalog.column_types :=
                [("category", "varchar"); ("stockqty", "int")] |}).
  - reflexivity.
  - left. reflexivity.
Defined.

Section CatalogScan.

Lemma is_target_name (table : Catalog.glue_table) (n : string) :
  Catalog.tbl_Name table = Some n ->
  Shape.is_target table = existsb (String.eqb n) Catalog.target_tables.
Proof. unfold Shape.is_target. intros ->. reflexivity. Qed.

(** The loop succeeds exactly on named tables whose target entries can
    be built. *)
Lemma scan_succeeds_iff : forall tables md,
  (exists md', Catalog.scan tables md = inr md') <->
  (forallb Shape.named tables = true /\
   forall table, In table tables -> Shape.is_target table = true ->
                 exists info, Catalog.table_entry table = inr info).
Proof.
  induction tables as [| table tables IH]; intros md.
  - cbn. split; [intros _; split; [reflexivity | intros ? []] | eauto].
  - cbn [Catalog.scan forallb]. unfold Res.bind, Shape.named at 1.
    destruct (Catalog.tbl_Name table) as [n |] eqn:Hname; cbn [Res.getitem].
    2:{ split; [intros [? H]; discriminate H | intros [H _]; discriminate H]. }
    rewrite andb_true_l.
    pose proof (is_target_name table Hname) as Htn.
    destruct (existsb (String.eqb n) Catalog.target_tables) eqn:Htarget.
    + destruct (Catalog.table_entry table) as [e | entry] eqn:Hentry.
      * split; [intros [? H]; discriminate H |].
        intros [_ H]. destruct (H table (or_introl eq_refl) Htn) as [? H'].
        congruence.
      * rewrite IH. split.
        -- intros [Hn Ht]. split; [exact Hn |].
           intros t [<- | Hin] Htt; [eauto | apply Ht; assumption].
        -- intros [Hn Ht]. split; [exact Hn |].
           intros t Hin. apply Ht. right. exact Hin.
    + rewrite IH. split.
      * intros [Hn Ht]. split; [exact Hn |].
        intros t [<- | Hin] Htt; [congruence | apply Ht; assumption].
      * intros [Hn Ht]. split; [exact Hn |].
        intros t Hin. apply Ht. right. exact Hin.
Qed.

(** Tables outside the targets do not change the result. *)
Lemma scan_skips_other_tables : forall tables md,
  forallb Shape.named tables = true ->
  Catalog.scan tables md = Catalog.scan (filter Shape.is_target tables) md.
Proof.
  induction tables as [| table tables IH]; intros md Hnamed; [reflexivity |].
  cbn [forallb] in Hnamed. apply andb_true_iff in Hnamed.
  destruct Hnamed as [Hn Hrest]. unfold Shape.named in Hn.
  destruct (Catalog.tbl_Name table) as [n |] eqn:Hname; [| discriminate].
  pose proof (is_target_name table Hname) as Htn.
  cbn [filter Catalog.scan]. unfold Res.bind. rewrite Hname. cbn [Res.getitem].
  destruct (existsb (String.eqb n) Catalog.target_tables) eqn:Htarget;
    rewrite Htn.
  - cbn [Catalog.scan]. unfold Res.bind. rewrite Hname. cbn [Res.getitem].
    rewrite Htarget.
    destruct (Catalog.table_entry table); [reflexivity | apply IH, Hrest].
  - apply IH, Hrest.
Qed.

Lemma scan_app : forall pre post md,
  Catalog.scan (pre ++ post) md =
    Res.bind (Catalog.scan pre md) (Catalog.scan post).
Proof.
  induction pre as [| table pre IH]; intros post md; [reflexivity |].
  cbn [app Catalog.scan]. unfold Res.bind.
  destruct (Res.getitem "Name" (Catalog.tbl_Name table)); [reflexivity |].
  destruct (existsb _ _).
  - destruct (Catalog.table_entry table); [reflexivity | apply IH].
  - apply IH.
Qed.

Lemma scan_no_targets : forall tables md,
  forallb Shape.named tables = true ->
  forallb (fun t => negb (Shape.is_target t)) tables = true ->
  Catalog.scan tables md = inr md.
Proof.
  intros tables md Hnamed Hnone.
  rewrite (scan_skips_other_tables _ _ Hnamed).
  assert (Hf : filter Shape.is_target tables = []).
  { clear Hnamed. induction tables as [| t tables IH]; [reflexivity |].
    cbn in *. apply andb_true_iff in Hnone. destruct Hnone as [Ht Hrest].
    apply negb_true_iff in Ht. rewrite Ht. apply IH, Hrest. }
  rewrite Hf. reflexivity.
Qed.

(** A map with distinct keys, all of them target tables, has at most the
    one entry. *)
Lemma target_keyed_map_is_small (md : Catalog.metadata) :
  NoDup (PyDict.keys md) ->
  (forall name, In name (PyDict.keys md) -> In name Catalog.target_tables) ->
  md = [] \/ exists info, md = [("xtstock2025", info)].
Proof.
  intros Hnd Hkeys. destruct md as [| [k v] md]; [left; reflexivity |].
  right. exists v.
  assert (Hk : k = "xtstock2025").
  { destruct (Hkeys k (or_introl eq_refl)) as [<- | []]. reflexivity. }
  subst k. destruct md as [| [k' v'] md]; [reflexivity |].
  exfalso. cbn in Hnd. inversion Hnd as [| ? ? Hnotin _]; subst.
  apply Hnotin. left.
  destruct (Hkeys k' (or_intror (or_introl eq_refl))) as [<- | []].
  reflexivity.
Qed.

End CatalogScan.

(** X12: The returned map has at most one entry, and its key is the target
    table [xtstock2025], however many tables the catalog lists. *)
Theorem fetched_map_has_at_most_the_target_entry (V : Type)
    (w : Catalog.world) (md : Catalog.metadata) :
  fst (Eff.run (Catalog.get_table_metadata V w)) = Returns (Some md) ->
  length md <= 1 /\
  NoDup (PyDict.keys md) /\
  forall name, In name (PyDict.keys md) -> name = "xtstock2025".
Proof.
  intros Hres.
  assert (Hclient : Catalog.glue_client w = None).
  { destruct (Catalog.glue_client w) as [e |] eqn:Hc; [| reflexivity].
    revert Hres. unfold Catalog.get_table_metadata. eff_unfold.
    rewrite Hc. discriminate. }
  destruct (get_table_metadata_cases V w Hclient)
    as [(md0 & Hres0 & (response & tables & _ & _ & Hscan) & _)
       | (Hres0 & _)];
    rewrite Hres in Hres0; [| discriminate].
  injection Hres0 as <-.
  assert (Hnd : NoDup (PyDict.keys md))
    by (eapply scan_keys_nodup; [exact Hscan | constructor]).
  assert (Hkeys : forall name, In name (PyDict.keys md) ->
                               In name Catalog.target_tables).
  { intros name Hin.
    destruct (scan_keys_are_targets _ _ Hscan name Hin) as [[] | H]. exact H. }
  destruct (target_keyed_map_is_small md Hnd Hkeys) as [-> | [info ->]].
  - split; [cbn; lia |]. split; [constructor |]. intros ? [].
  - split; [cbn; lia |]. split; [exact Hnd |].
    intros name [<- | []]. reflexivity.
Qed.

Lemma fetched_map_has_at_most_the_target_entry_witness :
  length Samples.stock_metadata <= 1 /\
  NoDup (PyDict.keys Samples.stock_metadata) /\
  forall name, In name (PyDict.keys Samples.stock_metadata) ->
               name = "xtstock2025".
Proof.
  apply (@fetched_map_has_at_most_the_target_entry Z Samples.glue_ok
           Samples.stock_metadata).
  reflexivity.
Defined.

(** X13: The fetcher returns a map exactly when the client is created, the
    catalog call returns an answer with a table list, every listed table
    has a name, and the entry of every listed target table can be built
    (it has a storage descriptor with columns, each with a name and a
    type).  One table without a name is enough to lose the whole answer. *)
Theorem fetcher_returns_a_map_exactly_for_well_formed_answers (V : Type)
    (w : Catalog.world) :
  (exists md, fst (Eff.run (Catalog.get_table_metadata V w)) =
                Returns (Some md))
  <->
  (Catalog.glue_client w = None /\
   exists response tables,
     Catalog.glue_get_tables w "sqlserver_metadata" = inr response /\
     Catalog.resp_TableList response = Some tables /\
     forallb Shape.named tables = true /\
     forall table, In table tables -> Shape.is_target table = true ->
                   exists info, Catalog.table_entry table = inr info).
Proof.
  split.
  - intros [md Hres].
    assert (Hclient : Catalog.glue_client w = None).
    { destruct (Catalog.glue_client w) as [e |] eqn:Hc; [| reflexivity].
      revert Hres. unfold Catalog.get_table_metadata. eff_unfold.
      rewrite Hc. discriminate. }
    split; [exact Hclient |].
    destruct (get_table_metadata_cases V w Hclient)
      as [(md0 & _ & (response & tables & Hget & Hlist & Hscan) & _)
         | (Hres0 & _)];
      [| rewrite Hres in Hres0; discriminate].
    exists response, tables. split; [exact Hget |]. split; [exact Hlist |].
    apply (scan_succeeds_iff tables []). eauto.
  - intros (Hclient & response & tables & Hget & Hlist & Hwf).
    apply (scan_succeeds_iff tables []) in Hwf. destruct Hwf as [md Hscan].
    exists md. unfold Catalog.get_table_metadata. eff_unfold.
    rewrite Hclient, Hget. cbn beta iota. rewrite Hlist. cbn beta iota.
    rewrite Hscan. cbn beta iota. destruct md; reflexivity.
Qed.

(** X14: Tables that are not targets are only asked for their name: two
    answers that agree on the target tables give the same run, whatever
    the other (named) tables look like. *)
Theorem other_tables_are_only_asked_their_name (V : Type)
    (w w' : Catalog.world) (tables : list Catalog.glue_table) :
  Catalog.glue_client w = Catalog.glue_client w' ->
  Catalog.glue_get_tables w "sqlserver_metadata" =
    inr {| Catalog.resp_TableList := Some tables |} ->
  Catalog.glue_get_tables w' "sqlserver_metadata" =
    inr {| Catalog.resp_TableList := Some (filter Shape.is_target tables) |} ->
  forallb Shape.named tables = true ->
  Eff.run (Catalog.get_table_metadata V w) =
    Eff.run (Catalog.get_table_metadata V w').
Proof.
  intros Hclient Hget Hget' Hnamed.
  unfold Catalog.get_table_metadata. eff_unfold.
  rewrite Hclient, Hget, Hget'. cbn beta iota.
  cbn [Catalog.resp_TableList].
  rewrite (scan_skips_other_tables tables [] Hnamed). reflexivity.
Qed.

Lemma other_tables_are_only_asked_their_name_witness :
  Eff.run (Catalog.get_table_metadata Z
             (Cases.glue_answers
                [Cases.view_table; Samples.stock_table; Samples.orders_table])) =
    Eff.run (Catalog.get_table_metadata Z
               (Cases.glue_answers [Samples.stock_table])).
Proof.
  apply (@other_tables_are_only_asked_their_name Z
           (Cases.glue_answers
              [Cases.view_table; Samples.stock_table; Samples.orders_table])
           (Cases.glue_answers [Samples.stock_table])
           [Cases.view_table; Samples.stock_table; Samples.orders_table]);
    reflexivity.
Defined.

(** X15: When the catalog lists the target table several times, the entry of
    the last listing is the one returned. *)
Theorem last_listing_of_the_target_wins (V : Type) (w : Catalog.world)
    (response : Catalog.response)
    (pre post : list Catalog.glue_table) (table : Catalog.glue_table)
    (info : Catalog.table_info) :
  Catalog.glue_client w = None ->
  Catalog.glue_get_tables w "sqlserver_metadata" = inr response ->
  Catalog.resp_TableList response = Some (pre ++ table :: post) ->
  forallb Shape.named pre = true ->
  (forall t, In t pre -> Shape.is_target t = true ->
             exists i, Catalog.table_entry t = inr i) ->
  Shape.is_target table = true ->
  Catalog.table_entry table = inr info ->
  forallb Shape.named post = true ->
  forallb (fun t => negb (Shape.is_target t)) post = true ->
  Eff.run (Catalog.get_table_metadata V w) =
    (Returns (Some [("xtstock2025", info)]),
     [EvGlueClient; EvGetTables "sqlserver_metadata"]).
Proof.
  intros Hclient Hget Hlist Hnpre Hpre Htarget Hentry Hnpost Hpost.
  assert (Hscan : Catalog.scan (pre ++ table :: post) [] =
                  inr [("xtstock2025", info)]).
  { rewrite scan_app.
    destruct (proj2 (scan_succeeds_iff pre []) (conj Hnpre Hpre))
      as [md_pre Hmd]. rewrite Hmd. cbn [Res.bind Catalog.scan].
    unfold Shape.is_target in Htarget.
    destruct (Catalog.tbl_Name table) as [n |]; [| discriminate].
    unfold Res.bind. cbn [Res.getitem]. rewrite Htarget, Hentry.
    assert (Hn : n = "xtstock2025").
    { apply existsb_exists in Htarget. destruct Htarget as (x & [<- | []] & Hx).
      apply String.eqb_eq in Hx. exact Hx. }
    subst n.
    rewrite (scan_no_targets post _ Hnpost Hpost). f_equal.
    assert (Hnd : NoDup (PyDict.keys md_pre))
      by (eapply scan_keys_nodup; [exact Hmd | constructor]).
    assert (Hkeys : forall name, In name (PyDict.keys md_pre) ->
                                 In name Catalog.target_tables).
    { intros name Hin.
      destruct (scan_keys_are_targets _ _ Hmd name Hin) as [[] | H]. exact H. }
    destruct (target_keyed_map_is_small md_pre Hnd Hkeys) as [-> | [i ->]];
      reflexivity. }
  unfold Catalog.get_table_metadata. eff_unfold.
  rewrite Hclient, Hget. cbn beta iota. rewrite Hlist. cbn beta iota.
  rewrite Hscan. reflexivity.
Qed.

Lemma last_listing_of_the_target_wins_witness :
  Eff.run (Catalog.get_table_metadata Z
             (Cases.glue_answers
                [Samples.stock_table; Cases.stock_table_v2;
                 Samples.orders_table])) =
    (Returns (Some [("xtstock2025",
                     {| Catalog.columns := ["sitename"];
                        Catalog.description := EmptyString;
                        Catalog.column_types := [("sitename", "varchar")] |})]),
     [EvGlueClient; EvGetTables "sqlserver_metadata"]).
Proof.
  apply (@last_listing_of_the_target_wins Z
           (Cases.glue_answers
              [Samples.stock_table; Cases.stock_table_v2; Samples.orders_table])
           {| Catalog.resp_TableList :=
                Some [Samples.stock_table; Cases.stock_table_v2;
                      Samples.orders_table] |}
           [Samples.stock_table] [Samples.orders_table] Cases.stock_table_v2).
  - reflexivity.
  - reflexivity.
  - reflexivity.
  - reflexivity.
  - intros t [<- | []] _. eexists. reflexivity.
  - reflexivity.
  - reflexivity.
  - reflexivity.
  - reflexivity.
Defined.

(** * Further properties of the generator *)

(** X16: A statement is returned only for an answer of the expected shape: a
    dictionary whose ['content'] is a list starting with a dictionary
    whose ['text'] is a string.  The statement is that string, stripped;
    later elements of the list are not looked at, and no error message is
    shown. *)
Theorem generated_statement_is_the_first_completion (V : Type)
    (w : Generator.world) (q : string) (md : option Catalog.metadata)
    (sql : string) :
  fst (Eff.run (Generator.generate_sql_query V w q md)) = Returns (Some sql) ->
  exists members fields rest text,
    Generator.br_invoke w (Generator.request (Generator.prompt q md)) =
      inr (inr (Json.Obj members)) /\
    PyDict.get members "content" = Some (Json.Arr (Json.Obj fields :: rest)) /\
    PyDict.get fields "text" = Some (Json.Str text) /\
    sql = PyStr.strip text /\
    snd (Eff.run (Generator.generate_sql_query V w q md)) =
      [EvBedrockClient;
       EvInvokeModel (Generator.request (Generator.prompt q md))].
Proof.
  intros Hres.
  pose proof (generate_sql_query_cases V w q md) as Hcases.
  cbn zeta in Hcases.
  destruct (Generator.br_client w) as [e |];
    [rewrite Hcases in Hres; discriminate |].
  destruct (Generator.br_invoke w _) as [e | [e | body]];
    try (rewrite Hcases in Hres; discriminate).
  destruct (Generator.completion_text body) as [e | text'] eqn:Htext;
    rewrite Hcases in Hres |- *; [discriminate |].
  injection Hres as ->.
  unfold Generator.completion_text, Res.bind in Htext.
  destruct body as [| b | n | s | items | members]; try discriminate.
  cbn [Json.getitem] in Htext. unfold Res.getitem in Htext.
  destruct (PyDict.get members "content") as [content |] eqn:Hcontent;
    [| discriminate].
  destruct content as [| b | n | s | [| first rest] | ms]; cbn in Htext;
    try discriminate.
  { destruct s; discriminate. }
  destruct first as [| b | n | s | items | fields]; try discriminate.
  cbn [Json.getitem] in Htext. unfold Res.getitem in Htext.
  destruct (PyDict.get fields "text") as [t |] eqn:Hfield; [| discriminate].
  destruct t as [| b | n | text | items | ms]; try discriminate.
  cbn in Htext. injection Htext as <-.
  exists members, fields, rest, text.
  repeat split; solve [assumption | reflexivity].
Qed.

Lemma generated_statement_is_the_first_completion_witness :
  let w := Samples.bedrock_answers "  SELECT 1;  " in
  exists members fields rest text,
    Generator.br_invoke w
      (Generator.request (Generator.prompt "q" (Some Samples.stock_metadata))) =
      inr (inr (Json.Obj members)) /\
    PyDict.get members "content" = Some (Json.Arr (Json.Obj fields :: rest)) /\
    PyDict.get fields "text" = Some (Json.Str text) /\
    "SELECT 1;" = PyStr.strip text /\
    snd (Eff.run (Generator.generate_sql_query Z w "q"
                    (Some Samples.stock_metadata))) =
      [EvBedrockClient;
       EvInvokeModel
         (Generator.request (Generator.prompt "q" (Some Samples.stock_metadata)))].
Proof.
  intros w.
  apply (@generated_statement_is_the_first_completion Z w "q"
           (Some Samples.stock_metadata) "SELECT 1;").
  reflexivity.
Defined.

(** X17: When the generator has its client and gives no statement, it called
    the model once and showed exactly two messages: the error and its
    traceback.  There is no retry. *)
Theorem failed_generation_is_reported_twice (V : Type) (w : Generator.world)
    (q : string) (md : option Catalog.metadata) :
  Generator.br_client w = None ->
  fst (Eff.run (Generator.generate_sql_query V w q md)) = Returns None ->
  exists e,
    snd (Eff.run (Generator.generate_sql_query V w q md)) =
      [EvBedrockClient;
       EvInvokeModel (Generator.request (Generator.prompt q md));
       EvError ("Error generating SQL: " ++ e)%string;
       EvError ("Traceback: " ++ Generator.br_traceback w e)%string].
Proof.
  intros Hclient Hres.
  pose proof (generate_sql_query_cases V w q md) as Hcases.
  cbn zeta in Hcases. rewrite Hclient in Hcases.
  destruct (Generator.br_invoke w _) as [e | [e | body]];
    [| | destruct (Generator.completion_text body) as [e | text]];
    rewrite Hcases in Hres |- *; try discriminate;
    exists e; reflexivity.
Qed.

Lemma failed_generation_is_reported_twice_witness :
  exists e,
    snd (Eff.run (Generator.generate_sql_query Z Cases.bedrock_throttled "q"
                    None)) =
      [EvBedrockClient;
       EvInvokeModel (Generator.request (Generator.prompt "q" None));
       EvError ("Error generating SQL: " ++ e)%string;
       EvError ("Traceback: " ++ Generator.br_traceback Cases.bedrock_throttled e)%string].
Proof.
  apply (@failed_generation_is_reported_twice Z Cases.bedrock_throttled "q"
           None); reflexivity.
Defined.

(** * Further properties of the page *)

(** The generator makes no call into the database driver. *)
Lemma generate_leaves_the_database_alone (V : Type) (w : Generator.world)
    (q : string) (md : option Catalog.metadata) :
  Forall (fun ev => Executor.is_db_event ev = false /\
                    Shape.is_dataframe ev = false /\
                    Shape.is_code ev = false)
    (snd (Eff.run (Generator.generate_sql_query V w q md))).
Proof.
  pose proof (generate_sql_query_cases V w q md) as H. cbn zeta in H.
  destruct (Generator.br_client w) as [e |].
  - rewrite H. repeat constructor.
  - destruct (Generator.br_invoke w _) as [e | [e | body]];
      [| | destruct (Generator.completion_text body)];
      rewrite H; repeat constructor.
Qed.

(** [main] on a submitted, non-empty question: the page, the generator,
    and, for a non-empty statement, its display and (when asked for) its
    execution. *)
Lemma main_after_submit (V : Type) (inp : Page.inputs)
    (gw : Generator.world) (cfg : Executor.config) (dw : Executor.world V)
    (md : option Catalog.metadata) :
  Page.submit_button inp = true ->
  PyStr.truthy (Page.user_input inp) = true ->
  Page.session_metadata inp = inr md ->
  let g := Eff.run (Generator.generate_sql_query V gw (Page.user_input inp) md) in
  Eff.run (Page.main inp gw cfg dw) =
    match fst g with
    | Raises e => (Raises e, Shape.page_calls ++ snd g)
    | Returns None => (Returns tt, Shape.page_calls ++ snd g)
    | Returns (Some sql) =>
        if PyStr.truthy sql
        then
          if Page.execute_query inp
          then
            let x := Eff.run (Executor.execute_sql_query cfg dw sql None) in
            match fst x with
            | Returns rows =>
                (Returns tt,
                 Shape.page_calls ++ snd g
                 ++ [EvSubheader "Generated SQL Query:"; EvCode sql]
                 ++ snd x
                 ++ [EvSubheader "Query Results:"; EvDataframe rows])
            | Raises e =>
                (Raises e,
                 Shape.page_calls ++ snd g
                 ++ [EvSubheader "Generated SQL Query:"; EvCode sql]
                 ++ snd x)
            end
          else
            (Returns tt,
             Shape.page_calls ++ snd g
             ++ [EvSubheader "Generated SQL Query:"; EvCode sql])
        else (Returns tt, Shape.page_calls ++ snd g)
    end.
Proof.
  intros Hsubmit Htruthy Hsess g. subst g.
  unfold Page.main, Shape.page_calls. rewrite Hsubmit, Htruthy, Hsess.
  cbn [andb]. unfold Eff.run at 1.
  repeat (rewrite bind_framed by apply framed_emit;
          cbn [Eff.run Eff.emit fst snd app]).
  rewrite bind_framed by apply framed_lift.
  cbn [Eff.run Res.lift Eff.ret fst snd app].
  rewrite bind_framed by apply framed_generate_sql_query.
  destruct (Eff.run (Generator.generate_sql_query V gw (Page.user_input inp) md))
    as [[[sql |] | e] tg]; cbn [fst snd].
  - destruct (PyStr.truthy sql).
    + repeat (rewrite bind_framed by apply framed_emit;
              cbn [Eff.run Eff.emit fst snd app]).
      destruct (Page.execute_query inp).
      * rewrite bind_framed by apply framed_execute_sql_query.
        cbn zeta.
        destruct (Eff.run (Executor.execute_sql_query cfg dw sql None))
          as [[rows | e] te]; cbn [fst snd].
        -- repeat (rewrite bind_framed by apply framed_emit;
                   cbn [Eff.run Eff.emit fst snd app]).
           unfold Eff.emit. f_equal. cbn [app].
           repeat (rewrite <- app_assoc; cbn [app]). reflexivity.
        -- f_equal. repeat (rewrite <- app_assoc; cbn [app]). reflexivity.
      * cbn [Eff.ret]. f_equal.
        repeat (rewrite <- app_assoc; cbn [app]). reflexivity.
    + cbn [Eff.ret]. reflexivity.
  - reflexivity.
  - reflexivity.
Qed.

(** X18: With the box "Execute query after generation" not ticked, [main]
    makes no call into the database driver, whatever the question, the
    session and the model do. *)
Theorem unticked_box_means_no_database_call (V : Type) (inp : Page.inputs)
    (gw : Generator.world) (cfg : Executor.config) (dw : Executor.world V) :
  Page.execute_query inp = false ->
  Executor.calls Executor.is_db_event
    (snd (Eff.run (Page.main inp gw cfg dw))) = 0.
Proof.
  intros Hbox.
  destruct (Page.submit_button inp && PyStr.truthy (Page.user_input inp))
    eqn:Hgo.
  - apply andb_true_iff in Hgo. destruct Hgo as [Hsubmit Htruthy].
    destruct (Page.session_metadata inp) as [e | md] eqn:Hsess.
    + unfold Page.main. rewrite Hsubmit, Htruthy, Hsess. reflexivity.
    + rewrite (@main_after_submit V inp gw cfg dw md Hsubmit Htruthy Hsess).
      cbn zeta. rewrite Hbox.
      pose proof (generate_leaves_the_database_alone V gw
                    (Page.user_input inp) md) as Hg.
      assert (Hg0 : Executor.calls Executor.is_db_event
                      (snd (Eff.run (Generator.generate_sql_query V gw
                                       (Page.user_input inp) md))) = 0).
      { apply calls_none. eapply Forall_impl; [| exact Hg].
        intros ev (H & _). exact H. }
      destruct (fst (Eff.run (Generator.generate_sql_query V gw
                                (Page.user_input inp) md)))
        as [[sql |] | e]; [destruct (PyStr.truthy sql) | |];
        cbn [snd]; rewrite ?calls_app, Hg0; reflexivity.
  - rewrite (@main_without_submission V inp gw cfg dw Hgo). reflexivity.
Qed.

Lemma unticked_box_means_no_database_call_witness :
  Executor.calls Executor.is_db_event
    (snd (Eff.run (Page.main Cases.page_inputs_no_execute
                     (Samples.bedrock_answers "SELECT 1;") Samples.cfg
                     Samples.db_ok))) = 0.
Proof.
  apply (@unticked_box_means_no_database_call Z Cases.page_inputs_no_execute
           (Samples.bedrock_answers "SELECT 1;") Samples.cfg Samples.db_ok).
  reflexivity.
Defined.

(** X19: When the generator gives no statement, or an empty one (a completion
    of whitespace only), [main] ends quietly after it: no statement is
    displayed and the database is not called. *)
Theorem no_statement_means_nothing_shown_or_run (V : Type)
    (inp : Page.inputs) (gw : Generator.world) (cfg : Executor.config)
    (dw : Executor.world V) (md : option Catalog.metadata)
    (sql_query : option string) :
  Page.submit_button inp = true ->
  PyStr.truthy (Page.user_input inp) = true ->
  Page.session_metadata inp = inr md ->
  fst (Eff.run (Generator.generate_sql_query V gw (Page.user_input inp) md)) =
    Returns sql_query ->
  Page.sql_truthy sql_query = false ->
  let r := Eff.run (Page.main inp gw cfg dw) in
  r = (Returns tt,
       Shape.page_calls
       ++ snd (Eff.run (Generator.generate_sql_query V gw
                          (Page.user_input inp) md))) /\
  Executor.calls Executor.is_db_event (snd r) = 0 /\
  Executor.calls Shape.is_code (snd r) = 0.
Proof.
  intros Hsubmit Htruthy Hsess Hgen Hfalsy r. subst r.
  rewrite (@main_after_submit V inp gw cfg dw md Hsubmit Htruthy Hsess).
  cbn zeta. rewrite Hgen.
  pose proof (generate_leaves_the_database_alone V gw
                (Page.user_input inp) md) as Hg.
  assert (Hdb : Executor.calls Executor.is_db_event
                  (snd (Eff.run (Generator.generate_sql_query V gw
                                   (Page.user_input inp) md))) = 0).
  { apply calls_none. eapply Forall_impl; [| exact Hg].
    intros ev (H & _). exact H. }
  assert (Hcode : Executor.calls Shape.is_code
                    (snd (Eff.run (Generator.generate_sql_query V gw
                                     (Page.user_input inp) md))) = 0).
  { apply calls_none. eapply Forall_impl; [| exact Hg].
    intros ev (_ & _ & H). exact H. }
  destruct sql_query as [sql |]; cbn in Hfalsy; [rewrite Hfalsy |];
    (split; [reflexivity |]); cbn [snd];
    rewrite !calls_app, Hdb, Hcode; split; reflexivity.
Qed.

Lemma no_statement_means_nothing_shown_or_run_witness :
  let inp := Samples.page_inputs (Some Samples.stock_metadata) in
  let gw := Samples.bedrock_answers "   " in
  let r := Eff.run (Page.main inp gw Samples.cfg Samples.db_ok) in
  r = (Returns tt,
       Shape.page_calls
       ++ snd (Eff.run (Generator.generate_sql_query Z gw
                          (Page.user_input inp)
                          (Some Samples.stock_metadata)))) /\
  Executor.calls Executor.is_db_event (snd r) = 0 /\
  Executor.calls Shape.is_code (snd r) = 0.
Proof.
  intros inp gw.
  apply (@no_statement_means_nothing_shown_or_run Z inp gw Samples.cfg
           Samples.db_ok (Some Samples.stock_metadata) (Some EmptyString));
    reflexivity.
Defined.

(** X20: An error of the executor leaves [main] as it is raised: the
    statement has been displayed, nothing follows the executor's calls,
    and no result table is drawn. *)
Theorem execution_error_escapes_main (V : Type) (inp : Page.inputs)
    (gw : Generator.world) (cfg : Executor.config) (dw : Executor.world V)
    (md : option Catalog.metadata) (sql : string) (e : exn) :
  Page.submit_button inp = true ->
  PyStr.truthy (Page.user_input inp) = true ->
  Page.session_metadata inp = inr md ->
  Page.execute_query inp = true ->
  fst (Eff.run (Generator.generate_sql_query V gw (Page.user_input inp) md)) =
    Returns (Some sql) ->
  PyStr.truthy sql = true ->
  fst (Eff.run (Executor.execute_sql_query cfg dw sql None)) = Raises e ->
  let r := Eff.run (Page.main inp gw cfg dw) in
  r = (Raises e,
       Shape.page_calls
       ++ snd (Eff.run (Generator.generate_sql_query V gw
                          (Page.user_input inp) md))
       ++ [EvSubheader "Generated SQL Query:"; EvCode sql]
       ++ snd (Eff.run (Executor.execute_sql_query cfg dw sql None))) /\
  Executor.calls Shape.is_dataframe (snd r) = 0.
Proof.
  intros Hsubmit Htruthy Hsess Hbox Hgen Hsql Hexec r. subst r.
  rewrite (@main_after_submit V inp gw cfg dw md Hsubmit Htruthy Hsess).
  cbn zeta. rewrite Hgen, Hsql, Hbox, Hexec.
  split; [reflexivity |]. cbn [snd]. rewrite !calls_app.
  assert (Hg : Executor.calls Shape.is_dataframe
                 (snd (Eff.run (Generator.generate_sql_query V gw
                                  (Page.user_input inp) md))) = 0).
  { apply calls_none. eapply Forall_impl;
      [| exact (generate_leaves_the_database_alone V gw
                  (Page.user_input inp) md)].
    intros ev (_ & H & _). exact H. }
  assert (Hx : Executor.calls Shape.is_dataframe
                 (snd (Eff.run (Executor.execute_sql_query cfg dw sql None)))
               = 0).
  { apply calls_none. eapply Forall_impl;
      [| exact (execute_db_events_only cfg dw sql None)].
    intros [] H; cbn in *; try discriminate; reflexivity. }
  rewrite Hg, Hx. reflexivity.
Qed.

Lemma execution_error_escapes_main_witness :
  let inp := Samples.page_inputs (Some Samples.stock_metadata) in
  let gw := Samples.bedrock_answers "SELECT * FROM nowhere;" in
  let r := Eff.run (Page.main inp gw Samples.cfg Samples.db_bad_statement) in
  r = (Raises "Database connection error: Error executing query: Invalid object name",
       Shape.page_calls
       ++ snd (Eff.run (Generator.generate_sql_query Z gw
                          (Page.user_input inp)
                          (Some Samples.stock_metadata)))
       ++ [EvSubheader "Generated SQL Query:"; EvCode "SELECT * FROM nowhere;"]
       ++ snd (Eff.run (Executor.execute_sql_query Samples.cfg
                          Samples.db_bad_statement "SELECT * FROM nowhere;"
                          None))) /\
  Executor.calls Shape.is_dataframe (snd r) = 0.
Proof.
  intros inp gw.
  apply (@execution_error_escapes_main Z inp gw Samples.cfg
           Samples.db_bad_statement (Some Samples.stock_metadata)
           "SELECT * FROM nowhere;"
           "Database connection error: Error executing query: Invalid object name");
    reflexivity.
Defined.

(** X21: On the full path [main] displays the generated statement, hands
    exactly that statement to the executor without parameters, and draws
    the rows the executor returned. *)
Theorem displayed_statement_is_executed_and_its_rows_shown (V : Type)
    (inp : Page.inputs) (gw : Generator.world) (cfg : Executor.config)
    (dw : Executor.world V) (md : option Catalog.metadata) (sql : string)
    (rows : list (PyDict.dict V)) :
  Page.submit_button inp = true ->
  PyStr.truthy (Page.user_input inp) = true ->
  Page.session_metadata inp = inr md ->
  Page.execute_query inp = true ->
  fst (Eff.run (Generator.generate_sql_query V gw (Page.user_input inp) md)) =
    Returns (Some sql) ->
  PyStr.truthy sql = true ->
  fst (Eff.run (Executor.execute_sql_query cfg dw sql None)) = Returns rows ->
  let r := Eff.run (Page.main inp gw cfg dw) in
  r = (Returns tt,
       Shape.page_calls
       ++ snd (Eff.run (Generator.generate_sql_query V gw
                          (Page.user_input inp) md))
       ++ [EvSubheader "Generated SQL Query:"; EvCode sql]
       ++ snd (Eff.run (Executor.execute_sql_query cfg dw sql None))
       ++ [EvSubheader "Query Results:"; EvDataframe rows]) /\
  forall q p, In (EvExecute q p) (snd r) -> q = sql /\ p = None.
Proof.
  intros Hsubmit Htruthy Hsess Hbox Hgen Hsql Hexec r. subst r.
  rewrite (@main_after_submit V inp gw cfg dw md Hsubmit Htruthy Hsess).
  cbn zeta. rewrite Hgen, Hsql, Hbox, Hexec.
  split; [reflexivity |]. cbn [snd]. intros q p Hin.
  apply in_app_or in Hin. destruct Hin as [Hin | Hin].
  { unfold Shape.page_calls in Hin. cbn in Hin.
    repeat (destruct Hin as [Hin | Hin]; [discriminate Hin |]).
    destruct Hin. }
  apply in_app_or in Hin. destruct Hin as [Hin | Hin].
  { pose proof (generate_leaves_the_database_alone V gw
                  (Page.user_input inp) md) as Hg.
    rewrite Forall_forall in Hg. destruct (Hg _ Hin) as (H & _).
    discriminate H. }
  apply in_app_or in Hin. destruct Hin as [Hin | Hin].
  { cbn in Hin. destruct Hin as [Hin | [Hin | []]]; discriminate Hin. }
  apply in_app_or in Hin. destruct Hin as [Hin | Hin].
  - destruct (execute_events_name_the_statement cfg dw sql None) as [_ Hev].
    destruct (Hev q p Hin) as [-> Hp]. split; [reflexivity |].
    destruct p as [[| x xs] |]; [destruct Hp | discriminate Hp | reflexivity].
  - cbn in Hin. destruct Hin as [Hin | [Hin | []]]; discriminate Hin.
Qed.

Lemma displayed_statement_is_executed_and_its_rows_shown_witness :
  let inp := Samples.page_inputs (Some Samples.stock_metadata) in
  let gw := Samples.bedrock_answers Samples.select_query in
  let r := Eff.run (Page.main inp gw Samples.cfg Samples.db_ok) in
  r = (Returns tt,
       Shape.page_calls
       ++ snd (Eff.run (Generator.generate_sql_query Z gw
                          (Page.user_input inp)
                          (Some Samples.stock_metadata)))
       ++ [EvSubheader "Generated SQL Query:"; EvCode Samples.select_query]
       ++ snd (Eff.run (Executor.execute_sql_query Samples.cfg Samples.db_ok
                          Samples.select_query None))
       ++ [EvSubheader "Query Results:";
           EvDataframe [[("category", 7%Z); ("stockqty", 10%Z)];
                        [("category", 7%Z); ("stockqty", 25%Z)]]]) /\
  forall q p, In (EvExecute q p) (snd r) ->
              q = Samples.select_query /\ p = None.
Proof.
  intros inp gw.
  apply (@displayed_statement_is_executed_and_its_rows_shown Z inp gw
           Samples.cfg Samples.db_ok (Some Samples.stock_metadata)
           Samples.select_query
           [[("category", 7%Z); ("stockqty", 10%Z)];
            [("category", 7%Z); ("stockqty", 25%Z)]]);
    reflexivity.
Defined.

(** X22: Unless the button is pressed on a non-empty question, [main] only
    draws the page: no session read, no model call, no database call. *)
Theorem idle_page_calls_nothing (V : Type) (inp : Page.inputs)
    (gw : Generator.world) (cfg : Executor.config) (dw : Executor.world V) :
  Page.submit_button inp = false \/ Page.user_input inp = EmptyString ->
  Eff.run (Page.main inp gw cfg dw) =
    (Returns tt,
     [EvPage "set_page_config"; EvPage "title"; EvPage "markdown";
      EvPage "columns"; EvPage "text_area"; EvPage "checkbox";
      EvPage "button"]).
Proof.
  intros Hidle. apply main_without_submission.
  destruct Hidle as [-> | ->]; [reflexivity | apply andb_false_r].
Qed.

Lemma idle_page_calls_nothing_witness :
  Eff.run (Page.main Cases.page_inputs_idle
             (Samples.bedrock_answers "SELECT 1;") Samples.cfg Samples.db_ok) =
    (Returns tt,
     [EvPage "set_page_config"; EvPage "title"; EvPage "markdown";
      EvPage "columns"; EvPage "text_area"; EvPage "checkbox";
      EvPage "button"]).
Proof.
  apply (@idle_page_calls_nothing Z Cases.page_inputs_idle
           (Samples.bedrock_answers "SELECT 1;") Samples.cfg Samples.db_ok).
  left. reflexivity.
Defined.

(** X23: When nothing is stored under [st.session_state.metadata], a
    submitted question makes [main] raise the error of that read; the
    generator is not reached. *)
Theorem missing_session_metadata_stops_main (V : Type) (inp : Page.inputs)
    (gw : Generator.world) (cfg : Executor.config) (dw : Executor.world V)
    (e : exn) :
  Page.submit_button inp = true ->
  PyStr.truthy (Page.user_input inp) = true ->
  Page.session_metadata inp = inl e ->
  let r := Eff.run (Page.main inp gw cfg dw) in
  fst r = Raises e /\
  snd r = Shape.page_calls /\
  Executor.calls Page.is_bedrock_client (snd r) = 0.
Proof.
  intros Hsubmit Htruthy Hsess r.
  destruct (@main_without_session_metadata_raises V inp gw cfg dw e
              Hsubmit Htruthy Hsess) as [Hres Hcount].
  fold r in Hres, Hcount. split; [exact Hres |]. split; [| exact Hcount].
  subst r. unfold Page.main. rewrite Hsubmit, Htruthy, Hsess. reflexivity.
Qed.

Lemma missing_session_metadata_stops_main_witness :
  let r := Eff.run (Page.main Cases.page_inputs_no_session
                      (Samples.bedrock_answers "SELECT 1;") Samples.cfg
                      Samples.db_ok) in
  fst r = Raises "st.session_state has no attribute metadata" /\
  snd r = Shape.page_calls /\
  Executor.calls Page.is_bedrock_client (snd r) = 0.
Proof.
  apply (@missing_session_metadata_stops_main Z Cases.page_inputs_no_session
           (Samples.bedrock_answers "SELECT 1;") Samples.cfg Samples.db_ok
           "st.session_state has no attribute metadata");
    reflexivity.
Defined.

(** * Where the code departs from what it sets out to do *)

(** [main] never calls the catalog and never shows a warning, whatever
    the inputs, the session, the model and the database do: the fetcher,
    which holds the warning, has no caller. *)
Lemma main_never_fetches_or_warns (V : Type) (inp : Page.inputs)
    (gw : Generator.world) (cfg : Executor.config) (dw : Executor.world V) :
  let t := snd (Eff.run (Page.main inp gw cfg dw)) in
  Executor.calls Shape.is_catalog_call t = 0 /\
  Executor.calls Page.is_warning t = 0.
Proof.
  cbn zeta.
  destruct (Page.submit_button inp && PyStr.truthy (Page.user_input inp))
    eqn:Hgo.
  2:{ rewrite (@main_without_submission V inp gw cfg dw Hgo).
      split; reflexivity. }
  apply andb_true_iff in Hgo. destruct Hgo as [Hsubmit Htruthy].
  destruct (Page.session_metadata inp) as [e | md] eqn:Hsess.
  { unfold Page.main. rewrite Hsubmit, Htruthy, Hsess. split; reflexivity. }
  rewrite (@main_after_submit V inp gw cfg dw md Hsubmit Htruthy Hsess).
  cbn zeta.
  assert (Hg : Forall (fun ev : event V =>
                         Shape.is_catalog_call ev = false /\
                         Page.is_warning ev = false)
                 (snd (Eff.run (Generator.generate_sql_query V gw
                                  (Page.user_input inp) md)))).
  { pose proof (generate_sql_query_cases V gw (Page.user_input inp) md) as H.
    cbn zeta in H.
    destruct (Generator.br_client gw) as [e |].
    - rewrite H. repeat constructor.
    - destruct (Generator.br_invoke gw _) as [e | [e | body]];
        [| | destruct (Generator.completion_text body)];
        rewrite H; repeat constructor. }
  assert (Hg1 : Executor.calls Shape.is_catalog_call
                  (snd (Eff.run (Generator.generate_sql_query V gw
                                   (Page.user_input inp) md))) = 0).
  { apply calls_none. eapply Forall_impl; [| exact Hg].
    intros ev [H _]. exact H. }
  assert (Hg2 : Executor.calls Page.is_warning
                  (snd (Eff.run (Generator.generate_sql_query V gw
                                   (Page.user_input inp) md))) = 0).
  { apply calls_none. eapply Forall_impl; [| exact Hg].
    intros ev [_ H]. exact H. }
  assert (Hx : forall sql,
             Executor.calls Shape.is_catalog_call
               (snd (Eff.run (Executor.execute_sql_query cfg dw sql None))) = 0
             /\
             Executor.calls Page.is_warning
               (snd (Eff.run (Executor.execute_sql_query cfg dw sql None))) = 0).
  { intros sql. split; apply calls_none;
      (eapply Forall_impl; [| exact (execute_db_events_only cfg dw sql None)]);
      intros [] H; cbn in *; try discriminate; reflexivity. }
  destruct (fst (Eff.run (Generator.generate_sql_query V gw
                            (Page.user_input inp) md)))
    as [[sql |] | e];
    [destruct (PyStr.truthy sql);
     [destruct (Page.execute_query inp);
      [destruct (Hx sql) as [Hx1 Hx2];
       destruct (fst (Eff.run (Executor.execute_sql_query cfg dw sql None)))
      |] |] | |];
    cbn [snd]; rewrite ?calls_app, ?Hg1, ?Hg2, ?Hx1, ?Hx2;
    split; reflexivity.
Qed.

(** C1: for a mutation whose execution raises no error the commit should
    be invoked once and the rollback not at all.  The code reads the
    column names and fetches the rows before it commits, and a mutation
    without a result set has no result descriptor: for
    [UPDATE t SET x=1], with [execute] returning, the call raises, rolls
    back once and never commits. *)
Theorem plain_update_is_rolled_back_and_not_committed :
  let query := "UPDATE t SET x=1" in
  let r := Eff.run (Executor.execute_sql_query Samples.cfg
                      Cases.db_no_result_set query None) in
  Executor.is_mutation query = true /\
  Executor.connected Samples.cfg Cases.db_no_result_set /\
  Executor.db_cursor Cases.db_no_result_set = None /\
  Executor.db_execute Cases.db_no_result_set query None = None /\
  r = (Raises
         "Database connection error: Error executing query: 'NoneType' object is not iterable",
       [EvConnect (Some "db.example") (Some "stock") (Some "app")
          (Some "secret");
        EvCursor; EvExecute query None; EvCursorExit; EvRollback; EvClose]) /\
  Executor.calls Executor.is_commit (snd r) = 0 /\
  Executor.calls Executor.is_rollback (snd r) = 1.
Proof.
  cbn zeta. repeat split; reflexivity.
Qed.

(** C3: when the catalog has no target table the page should show a
    warning and skip the generation.  The fetcher does warn on such a
    catalog, but [main] never calls it and nothing stores its result in
    the session: a submitted question stops at the read of
    [st.session_state.metadata], which raises; the page shows no warning,
    and the generation is not skipped by a check but lost with the
    run. *)
Theorem submitted_question_raises_and_shows_no_warning :
  let r := Eff.run (Page.main Cases.page_inputs_no_session
                      (Samples.bedrock_answers "SELECT * FROM xtstock2025;")
                      Samples.cfg Samples.db_ok) in
  Eff.run (Catalog.get_table_metadata Z Samples.glue_no_target) =
    (Returns (Some []),
     [EvGlueClient; EvGetTables "sqlserver_metadata";
      EvWarning "No target tables found in the Glue Catalog"]) /\
  r = (Raises "st.session_state has no attribute metadata",
       Shape.page_calls) /\
  Executor.calls Shape.is_catalog_call (snd r) = 0 /\
  Executor.calls Page.is_warning (snd r) = 0 /\
  Executor.calls Page.is_bedrock_client (snd r) = 0.
Proof.
  cbn zeta. repeat split; reflexivity.
Qed.
